(** * DX-TECHIES crowd monitor: detection, statistics, alerting and session state

    A shallow embedding of the logic of the [App] component
    (detection loop, statistics, trend buffer, log, session handlers),
    of [utils/audio.ts] (the alert cooldown) and of [types.ts].

    Conventions.
    - JavaScript numbers that hold integers (array lengths, counters,
      millisecond timestamps, the slider threshold) are [Z].
    - Detection scores and the confidence cutoff are IEEE-754 binary64
      values, as in JavaScript: [float] with [PrimFloat.leb] for [>=].
    - React state, refs and the module-level variable of [utils/audio.ts]
      are the fields of one [State] record; every handler is a function
      [State -> State] and reads the clock, random ids and the outcome of
      browser calls from an explicit environment argument.
    - Functional updaters ([setStats(prev => ...)]) are applied in call
      order, so a handler is the composition of its updaters.
    - Scheduling ([setTimeout], [requestAnimationFrame], [setInterval]) is
      not part of the state: a detection cycle or a timer tick is an event
      that can occur at any time.  A cycle carries the values its closure
      captured, which need not be those of the current state.
    - Drawing, encoding and sound synthesis are the browser's: the model
      keeps what was asked of them (the overlay, the recorder state, the
      sirens started, the recordings saved) and takes them not to throw. *)

From Stdlib Require Import ZArith List String Bool Lia DecimalString.
From Stdlib Require Import Floats.PrimFloat.
Import ListNotations.

Local Open Scope string_scope.
Local Open Scope list_scope.
Local Open Scope Z_scope.

Set Implicit Arguments.
Set Warnings "-inexact-float".

(** ** types.ts *)

Module Detection.
Record t := mk
  { bbox : float * float * float * float;
    class : string;
    score : float }.
End Detection.

Module Screenshot.
Record t := mk
  { id : string;
    url : string;
    timestamp : string;
    count : Z }.
End Screenshot.

Inductive LogType := info | alert | success | warning | error.

Module LogEntry.
Record t := mk
  { id : string;
    time : string;
    message : string;
    type : LogType }.
End LogEntry.

Record Stats := mkStats
  { currentCount : Z;
    peakCount : Z;
    avgCount : Z;
    totalDetections : Z;
    sessionStartTime : option Z }.

Inductive DetectionSpeed := FAST | NORMAL | ACCURATE.

(** One element of [chartData]: [{ time: string, count: number }]. *)
Module ChartPoint.
Record t := mk
  { time : string;
    count : Z }.
End ChartPoint.

(** ** Browser objects held in refs *)

(** What the [<video>] element plays: nothing, the webcam stream
    ([srcObject]) or an object URL of an uploaded file ([src]). *)
Inductive VideoSource :=
| NoSource
| WebcamStream
| FileUrl (name : string).

(** The closure installed as [video.onloadedmetadata]; the two handlers that
    install one differ in the log line they write. *)
Inductive MetadataHandler :=
| FromWebcam
| FromUpload (name : string).

(** [MediaRecorder.state]. *)
Inductive RecorderState := RecInactive | RecRecording.

(** ** The state of the application *)

Record State := mkState
  { (* useState *)
    model : bool;                       (* [model !== null] *)
    isSystemReady : bool;
    isMonitoring : bool;
    isRecording : bool;
    stats : Stats;
    chartData : list ChartPoint.t;
    logs : list LogEntry.t;
    screenshots : list Screenshot.t;
    sessionDuration : string;
    fps : Z;
    threshold : Z;
    confidence : float;
    detectionSpeed : DetectionSpeed;
    soundEnabled : bool;
    (* useRef *)
    videoRef : bool;                    (* [videoRef.current !== null] *)
    canvasRef : bool;                   (* [canvasRef.current !== null] *)
    videoSource : VideoSource;
    onloadedmetadata : option MetadataHandler;
    overlay : list Detection.t;         (* boxes drawn on the canvas *)
    mediaRecorderRef : option RecorderState;
    frameCountRef : Z;
    lastFpsTimeRef : Z;
    historyRef : list Z;
    (* utils/audio.ts *)
    lastAlertTime : Z;
    sirens : list Z;                    (* start times of played sirens, newest first *)
    (* export sink *)
    downloads : list Z }.               (* [Date.now()] of each saved recording *)

(** The state after the first render, [mountTime] being the [Date.now()]
    with which [lastFpsTimeRef] is initialised. *)
Definition initialStats : Stats :=
  {| currentCount := 0;
     peakCount := 0;
     avgCount := 0;
     totalDetections := 0;
     sessionStartTime := None |}.

Definition initialState (mountTime : Z) : State :=
  {| model := false;
     isSystemReady := false;
     isMonitoring := false;
     isRecording := false;
     stats := initialStats;
     chartData := [];
     logs := [];
     screenshots := [];
     sessionDuration := "00:00";
     fps := 0;
     threshold := 3;
     confidence := 0.5%float;
     detectionSpeed := NORMAL;
     soundEnabled := true;
     videoRef := true;
     canvasRef := true;
     videoSource := NoSource;
     onloadedmetadata := None;
     overlay := [];
     mediaRecorderRef := None;
     frameCountRef := 0;
     lastFpsTimeRef := mountTime;
     historyRef := [];
     lastAlertTime := 0;
     sirens := [];
     downloads := [] |}.

(** ** State setters

    One per [useState] setter or assigned ref.  Setters that the source
    calls with an updater function take a function here as well. *)

Definition setModel (v : bool) (s : State) : State :=
  mkState v s.(isSystemReady) s.(isMonitoring) s.(isRecording) s.(stats)
    s.(chartData) s.(logs) s.(screenshots) s.(sessionDuration) s.(fps)
    s.(threshold) s.(confidence) s.(detectionSpeed) s.(soundEnabled)
    s.(videoRef) s.(canvasRef) s.(videoSource) s.(onloadedmetadata)
    s.(overlay) s.(mediaRecorderRef) s.(frameCountRef) s.(lastFpsTimeRef)
    s.(historyRef) s.(lastAlertTime) s.(sirens) s.(downloads).

Definition setIsSystemReady (v : bool) (s : State) : State :=
  mkState s.(model) v s.(isMonitoring) s.(isRecording) s.(stats)
    s.(chartData) s.(logs) s.(screenshots) s.(sessionDuration) s.(fps)
    s.(threshold) s.(confidence) s.(detectionSpeed) s.(soundEnabled)
    s.(videoRef) s.(canvasRef) s.(videoSource) s.(onloadedmetadata)
    s.(overlay) s.(mediaRecorderRef) s.(frameCountRef) s.(lastFpsTimeRef)
    s.(historyRef) s.(lastAlertTime) s.(sirens) s.(downloads).

Definition setIsMonitoring (v : bool) (s : State) : State :=
  mkState s.(model) s.(isSystemReady) v s.(isRecording) s.(stats)
    s.(chartData) s.(logs) s.(screenshots) s.(sessionDuration) s.(fps)
    s.(threshold) s.(confidence) s.(detectionSpeed) s.(soundEnabled)
    s.(videoRef) s.(canvasRef) s.(videoSource) s.(onloadedmetadata)
    s.(overlay) s.(mediaRecorderRef) s.(frameCountRef) s.(lastFpsTimeRef)
    s.(historyRef) s.(lastAlertTime) s.(sirens) s.(downloads).

Definition setIsRecording (v : bool) (s : State) : State :=
  mkState s.(model) s.(isSystemReady) s.(isMonitoring) v s.(stats)
    s.(chartData) s.(logs) s.(screenshots) s.(sessionDuration) s.(fps)
    s.(threshold) s.(confidence) s.(detectionSpeed) s.(soundEnabled)
    s.(videoRef) s.(canvasRef) s.(videoSource) s.(onloadedmetadata)
    s.(overlay) s.(mediaRecorderRef) s.(frameCountRef) s.(lastFpsTimeRef)
    s.(historyRef) s.(lastAlertTime) s.(sirens) s.(downloads).

Definition setStats (f : Stats -> Stats) (s : State) : State :=
  mkState s.(model) s.(isSystemReady) s.(isMonitoring) s.(isRecording)
    (f s.(stats))
    s.(chartData) s.(logs) s.(screenshots) s.(sessionDuration) s.(fps)
    s.(threshold) s.(confidence) s.(detectionSpeed) s.(soundEnabled)
    s.(videoRef) s.(canvasRef) s.(videoSource) s.(onloadedmetadata)
    s.(overlay) s.(mediaRecorderRef) s.(frameCountRef) s.(lastFpsTimeRef)
    s.(historyRef) s.(lastAlertTime) s.(sirens) s.(downloads).

Definition setChartData (f : list ChartPoint.t -> list ChartPoint.t)
    (s : State) : State :=
  mkState s.(model) s.(isSystemReady) s.(isMonitoring) s.(isRecording)
    s.(stats)
    (f s.(chartData)) s.(logs) s.(screenshots) s.(sessionDuration) s.(fps)
    s.(threshold) s.(confidence) s.(detectionSpeed) s.(soundEnabled)
    s.(videoRef) s.(canvasRef) s.(videoSource) s.(onloadedmetadata)
    s.(overlay) s.(mediaRecorderRef) s.(frameCountRef) s.(lastFpsTimeRef)
    s.(historyRef) s.(lastAlertTime) s.(sirens) s.(downloads).

Definition setLogs (f : list LogEntry.t -> list LogEntry.t)
    (s : State) : State :=
  mkState s.(model) s.(isSystemReady) s.(isMonitoring) s.(isRecording)
    s.(stats)
    s.(chartData) (f s.(logs)) s.(screenshots) s.(sessionDuration) s.(fps)
    s.(threshold) s.(confidence) s.(detectionSpeed) s.(soundEnabled)
    s.(videoRef) s.(canvasRef) s.(videoSource) s.(onloadedmetadata)
    s.(overlay) s.(mediaRecorderRef) s.(frameCountRef) s.(lastFpsTimeRef)
    s.(historyRef) s.(lastAlertTime) s.(sirens) s.(downloads).

Definition setScreenshots (f : list Screenshot.t -> list Screenshot.t)
    (s : State) : State :=
  mkState s.(model) s.(isSystemReady) s.(isMonitoring) s.(isRecording)
    s.(stats)
    s.(chartData) s.(logs) (f s.(screenshots)) s.(sessionDuration) s.(fps)
    s.(threshold) s.(confidence) s.(detectionSpeed) s.(soundEnabled)
    s.(videoRef) s.(canvasRef) s.(videoSource) s.(onloadedmetadata)
    s.(overlay) s.(mediaRecorderRef) s.(frameCountRef) s.(lastFpsTimeRef)
    s.(historyRef) s.(lastAlertTime) s.(sirens) s.(downloads).

Definition setSessionDuration (v : string) (s : State) : State :=
  mkState s.(model) s.(isSystemReady) s.(isMonitoring) s.(isRecording)
    s.(stats)
    s.(chartData) s.(logs) s.(screenshots) v s.(fps)
    s.(threshold) s.(confidence) s.(detectionSpeed) s.(soundEnabled)
    s.(videoRef) s.(canvasRef) s.(videoSource) s.(onloadedmetadata)
    s.(overlay) s.(mediaRecorderRef) s.(frameCountRef) s.(lastFpsTimeRef)
    s.(historyRef) s.(lastAlertTime) s.(sirens) s.(downloads).

Definition setFps (v : Z) (s : State) : State :=
  mkState s.(model) s.(isSystemReady) s.(isMonitoring) s.(isRecording)
    s.(stats)
    s.(chartData) s.(logs) s.(screenshots) s.(sessionDuration) v
    s.(threshold) s.(confidence) s.(detectionSpeed) s.(soundEnabled)
    s.(videoRef) s.(canvasRef) s.(videoSource) s.(onloadedmetadata)
    s.(overlay) s.(mediaRecorderRef) s.(frameCountRef) s.(lastFpsTimeRef)
    s.(historyRef) s.(lastAlertTime) s.(sirens) s.(downloads).

Definition setThreshold (v : Z) (s : State) : State :=
  mkState s.(model) s.(isSystemReady) s.(isMonitoring) s.(isRecording)
    s.(stats)
    s.(chartData) s.(logs) s.(screenshots) s.(sessionDuration) s.(fps)
    v s.(confidence) s.(detectionSpeed) s.(soundEnabled)
    s.(videoRef) s.(canvasRef) s.(videoSource) s.(onloadedmetadata)
    s.(overlay) s.(mediaRecorderRef) s.(frameCountRef) s.(lastFpsTimeRef)
    s.(historyRef) s.(lastAlertTime) s.(sirens) s.(downloads).

Definition setConfidence (v : float) (s : State) : State :=
  mkState s.(model) s.(isSystemReady) s.(isMonitoring) s.(isRecording)
    s.(stats)
    s.(chartData) s.(logs) s.(screenshots) s.(sessionDuration) s.(fps)
    s.(threshold) v s.(detectionSpeed) s.(soundEnabled)
    s.(videoRef) s.(canvasRef) s.(videoSource) s.(onloadedmetadata)
    s.(overlay) s.(mediaRecorderRef) s.(frameCountRef) s.(lastFpsTimeRef)
    s.(historyRef) s.(lastAlertTime) s.(sirens) s.(downloads).

Definition setDetectionSpeed (v : DetectionSpeed) (s : State) : State :=
  mkState s.(model) s.(isSystemReady) s.(isMonitoring) s.(isRecording)
    s.(stats)
    s.(chartData) s.(logs) s.(screenshots) s.(sessionDuration) s.(fps)
    s.(threshold) s.(confidence) v s.(soundEnabled)
    s.(videoRef) s.(canvasRef) s.(videoSource) s.(onloadedmetadata)
    s.(overlay) s.(mediaRecorderRef) s.(frameCountRef) s.(lastFpsTimeRef)
    s.(historyRef) s.(lastAlertTime) s.(sirens) s.(downloads).

Definition setSoundEnabled (v : bool) (s : State) : State :=
  mkState s.(model) s.(isSystemReady) s.(isMonitoring) s.(isRecording)
    s.(stats)
    s.(chartData) s.(logs) s.(screenshots) s.(sessionDuration) s.(fps)
    s.(threshold) s.(confidence) s.(detectionSpeed) v
    s.(videoRef) s.(canvasRef) s.(videoSource) s.(onloadedmetadata)
    s.(overlay) s.(mediaRecorderRef) s.(frameCountRef) s.(lastFpsTimeRef)
    s.(historyRef) s.(lastAlertTime) s.(sirens) s.(downloads).

Definition setVideoSource (v : VideoSource) (s : State) : State :=
  mkState s.(model) s.(isSystemReady) s.(isMonitoring) s.(isRecording)
    s.(stats)
    s.(chartData) s.(logs) s.(screenshots) s.(sessionDuration) s.(fps)
    s.(threshold) s.(confidence) s.(detectionSpeed) s.(soundEnabled)
    s.(videoRef) s.(canvasRef) v s.(onloadedmetadata)
    s.(overlay) s.(mediaRecorderRef) s.(frameCountRef) s.(lastFpsTimeRef)
    s.(historyRef) s.(lastAlertTime) s.(sirens) s.(downloads).

Definition setOnloadedmetadata (v : option MetadataHandler)
    (s : State) : State :=
  mkState s.(model) s.(isSystemReady) s.(isMonitoring) s.(isRecording)
    s.(stats)
    s.(chartData) s.(logs) s.(screenshots) s.(sessionDuration) s.(fps)
    s.(threshold) s.(confidence) s.(detectionSpeed) s.(soundEnabled)
    s.(videoRef) s.(canvasRef) s.(videoSource) v
    s.(overlay) s.(mediaRecorderRef) s.(frameCountRef) s.(lastFpsTimeRef)
    s.(historyRef) s.(lastAlertTime) s.(sirens) s.(downloads).

Definition setOverlay (v : list Detection.t) (s : State) : State :=
  mkState s.(model) s.(isSystemReady) s.(isMonitoring) s.(isRecording)
    s.(stats)
    s.(chartData) s.(logs) s.(screenshots) s.(sessionDuration) s.(fps)
    s.(threshold) s.(confidence) s.(detectionSpeed) s.(soundEnabled)
    s.(videoRef) s.(canvasRef) s.(videoSource) s.(onloadedmetadata)
    v s.(mediaRecorderRef) s.(frameCountRef) s.(lastFpsTimeRef)
    s.(historyRef) s.(lastAlertTime) s.(sirens) s.(downloads).

Definition setMediaRecorderRef (v : option RecorderState)
    (s : State) : State :=
  mkState s.(model) s.(isSystemReady) s.(isMonitoring) s.(isRecording)
    s.(stats)
    s.(chartData) s.(logs) s.(screenshots) s.(sessionDuration) s.(fps)
    s.(threshold) s.(confidence) s.(detectionSpeed) s.(soundEnabled)
    s.(videoRef) s.(canvasRef) s.(videoSource) s.(onloadedmetadata)
    s.(overlay) v s.(frameCountRef) s.(lastFpsTimeRef)
    s.(historyRef) s.(lastAlertTime) s.(sirens) s.(downloads).

Definition setFrameCountRef (v : Z) (s : State) : State :=
  mkState s.(model) s.(isSystemReady) s.(isMonitoring) s.(isRecording)
    s.(stats)
    s.(chartData) s.(logs) s.(screenshots) s.(sessionDuration) s.(fps)
    s.(threshold) s.(confidence) s.(detectionSpeed) s.(soundEnabled)
    s.(videoRef) s.(canvasRef) s.(videoSource) s.(onloadedmetadata)
    s.(overlay) s.(mediaRecorderRef) v s.(lastFpsTimeRef)
    s.(historyRef) s.(lastAlertTime) s.(sirens) s.(downloads).

Definition setLastFpsTimeRef (v : Z) (s : State) : State :=
  mkState s.(model) s.(isSystemReady) s.(isMonitoring) s.(isRecording)
    s.(stats)
    s.(chartData) s.(logs) s.(screenshots) s.(sessionDuration) s.(fps)
    s.(threshold) s.(confidence) s.(detectionSpeed) s.(soundEnabled)
    s.(videoRef) s.(canvasRef) s.(videoSource) s.(onloadedmetadata)
    s.(overlay) s.(mediaRecorderRef) s.(frameCountRef) v
    s.(historyRef) s.(lastAlertTime) s.(sirens) s.(downloads).

Definition setHistoryRef (v : list Z) (s : State) : State :=
  mkState s.(model) s.(isSystemReady) s.(isMonitoring) s.(isRecording)
    s.(stats)
    s.(chartData) s.(logs) s.(screenshots) s.(sessionDuration) s.(fps)
    s.(threshold) s.(confidence) s.(detectionSpeed) s.(soundEnabled)
    s.(videoRef) s.(canvasRef) s.(videoSource) s.(onloadedmetadata)
    s.(overlay) s.(mediaRecorderRef) s.(frameCountRef) s.(lastFpsTimeRef)
    v s.(lastAlertTime) s.(sirens) s.(downloads).

Definition setLastAlertTime (v : Z) (s : State) : State :=
  mkState s.(model) s.(isSystemReady) s.(isMonitoring) s.(isRecording)
    s.(stats)
    s.(chartData) s.(logs) s.(screenshots) s.(sessionDuration) s.(fps)
    s.(threshold) s.(confidence) s.(detectionSpeed) s.(soundEnabled)
    s.(videoRef) s.(canvasRef) s.(videoSource) s.(onloadedmetadata)
    s.(overlay) s.(mediaRecorderRef) s.(frameCountRef) s.(lastFpsTimeRef)
    s.(historyRef) v s.(sirens) s.(downloads).

Definition setSirens (v : list Z) (s : State) : State :=
  mkState s.(model) s.(isSystemReady) s.(isMonitoring) s.(isRecording)
    s.(stats)
    s.(chartData) s.(logs) s.(screenshots) s.(sessionDuration) s.(fps)
    s.(threshold) s.(confidence) s.(detectionSpeed) s.(soundEnabled)
    s.(videoRef) s.(canvasRef) s.(videoSource) s.(onloadedmetadata)
    s.(overlay) s.(mediaRecorderRef) s.(frameCountRef) s.(lastFpsTimeRef)
    s.(historyRef) s.(lastAlertTime) v s.(downloads).

Definition setDownloads (v : list Z) (s : State) : State :=
  mkState s.(model) s.(isSystemReady) s.(isMonitoring) s.(isRecording)
    s.(stats)
    s.(chartData) s.(logs) s.(screenshots) s.(sessionDuration) s.(fps)
    s.(threshold) s.(confidence) s.(detectionSpeed) s.(soundEnabled)
    s.(videoRef) s.(canvasRef) s.(videoSource) s.(onloadedmetadata)
    s.(overlay) s.(mediaRecorderRef) s.(frameCountRef) s.(lastFpsTimeRef)
    s.(historyRef) s.(lastAlertTime) s.(sirens) v.

(** ** Array helpers

    [Array.prototype.slice] at the two call shapes of the source. *)

(** [a.slice(0, n)]: the first [n] elements. *)
Definition sliceTo {A : Type} (n : nat) (a : list A) : list A :=
  firstn n a.

(** [a.slice(-n)]: the last [n] elements, all of them when [a] is shorter. *)
Definition sliceLast {A : Type} (n : nat) (a : list A) : list A :=
  skipn (List.length a - n) a.

(** ** utils/audio.ts

    [playAlertSound]: [now] is the [Date.now()] read on entry.  Past the
    cooldown gate the function records [now] and starts the two-tone siren
    on the alert channel, which is fire-and-forget; the siren is recorded in
    [sirens]. *)
Definition playAlertSound (now : Z) (s : State) : State :=
  if now - s.(lastAlertTime) <? 2000 then s
  else setSirens (now :: s.(sirens)) (setLastAlertTime now s).

(** ** Logger *)

(** The two values [addLog] draws from the environment: the random id and
    [new Date().toLocaleTimeString()]. *)
Record Stamp := mkStamp
  { randomId : string;
    localeTime : string }.

Definition addLog (st : Stamp) (message : string) (type : LogType)
    (s : State) : State :=
  let entry := LogEntry.mk st.(randomId) st.(localeTime) message type in
  setLogs (fun prev => sliceTo 100 (entry :: prev)) s.

(** ** Model initialisation (the first [useEffect]) *)

Definition loadModel (ok : bool) (st : Stamp) (s : State) : State :=
  if ok then
    addLog st "Neural network initialized and ready." success
      (setIsSystemReady true (setModel true s))
  else
    addLog st "Failed to initialize detection engine." error s.

(** ** Session timer (the second [useEffect]) *)

Definition decimal (z : Z) : string := NilZero.string_of_int (Z.to_int z).

(** [String(n).padStart(2, '0')]. *)
Definition padStart2 (z : Z) : string :=
  let d := decimal z in
  match String.length d with
  | O => "00"
  | S O => String.append "0" d
  | _ => d
  end.

(** One firing of the interval; it is installed only while monitoring with
    a truthy [sessionStartTime]. *)
Definition sessionTimerTick (now : Z) (s : State) : State :=
  match s.(stats).(sessionStartTime) with
  | Some start =>
      if s.(isMonitoring) && negb (start =? 0) then
        let seconds := (now - start) / 1000 in
        let mm := padStart2 (seconds / 60) in
        let ss := padStart2 (Z.rem seconds 60) in
        setSessionDuration (String.append mm (String.append ":" ss)) s
      else s
  | None => s
  end.

(** ** Detection loop *)

(** [renderDetections]: redraws the overlay canvas with one box per
    detection (the canvas is taken to give a 2d context). *)
Definition renderDetections (detections : list Detection.t)
    (s : State) : State :=
  if negb s.(canvasRef) || negb s.(videoRef) then s
  else setOverlay detections s.

(** [predictions.filter(p => p.class === 'person' && p.score >= confidence)] *)
Definition isPerson (confidence : float) (p : Detection.t) : bool :=
  String.eqb p.(Detection.class) "person"
  && PrimFloat.leb confidence p.(Detection.score).

Definition filterPeople (confidence : float)
    (predictions : list Detection.t) : list Detection.t :=
  filter (isPerson confidence) predictions.

(** The updater passed to [setStats] in [runDetection]. *)
Definition updateStats (count : Z) (prev : Stats) : Stats :=
  {| currentCount := count;
     peakCount := Z.max prev.(peakCount) count;
     avgCount := prev.(avgCount);
     totalDetections :=
       prev.(totalDetections) + (if 0 <? count then 1 else 0);
     sessionStartTime := prev.(sessionStartTime) |}.

(** [Math.round(a / b)] for integers [a] and [b > 0]: the integer nearest
    to the quotient, halves rounded up. *)
Definition mathRoundDiv (a b : Z) : Z := (2 * a + b) / (2 * b).

(** The values [runDetection] closes over ([useCallback] dependencies).  A
    scheduled cycle keeps the values of the render that created it. *)
Record Captured := mkCaptured
  { c_model : bool;
    c_isMonitoring : bool;
    c_confidence : float;
    c_threshold : Z;
    c_soundEnabled : bool;
    c_detectionSpeed : DetectionSpeed }.

Definition capture (s : State) : Captured :=
  {| c_model := s.(model);
     c_isMonitoring := s.(isMonitoring);
     c_confidence := s.(confidence);
     c_threshold := s.(threshold);
     c_soundEnabled := s.(soundEnabled);
     c_detectionSpeed := s.(detectionSpeed) |}.

(** What one cycle reads from the browser. *)
Record CycleEnv := mkCycleEnv
  { readyState : Z;                       (* [video.readyState] *)
    detect : option (list Detection.t);   (* [None]: [model.detect] rejected *)
    alertNow : Z;                         (* [Date.now()] in [playAlertSound] *)
    fpsNow : Z;                           (* [Date.now()] of the FPS step *)
    chartTime : string }.                 (* [toLocaleTimeString] of the chart point *)

(** The updater passed to [setChartData]:
    [prev => [...prev, point].slice(-30)]. *)
Definition pushChartPoint (point : ChartPoint.t)
    (prev : list ChartPoint.t) : list ChartPoint.t :=
  sliceLast 30 (prev ++ [point]).

(** The FPS step of a cycle: [frameCountRef.current++] and, once a second,
    the FPS sample and the chart point. *)
Definition fpsStep (env : CycleEnv) (count : Z) (s : State) : State :=
  let s := setFrameCountRef (s.(frameCountRef) + 1) s in
  let now := env.(fpsNow) in
  let delta := now - s.(lastFpsTimeRef) in
  if 1000 <=? delta then
    let s := setFps (mathRoundDiv (s.(frameCountRef) * 1000) delta) s in
    let s := setFrameCountRef 0 s in
    let s := setLastFpsTimeRef now s in
    setChartData (pushChartPoint (ChartPoint.mk env.(chartTime) count)) s
  else s.

(** The sound-alert step of a cycle. *)
Definition alertStep (c : Captured) (env : CycleEnv) (count : Z)
    (s : State) : State :=
  if c.(c_soundEnabled) && (c.(c_threshold) <=? count)
  then playAlertSound env.(alertNow) s
  else s.

(** The body of the [try] block once [model.detect] has resolved. *)
Definition processFrame (c : Captured) (env : CycleEnv)
    (predictions : list Detection.t) (s : State) : State :=
  let people := filterPeople c.(c_confidence) predictions in
  let count := Z.of_nat (List.length people) in
  let s := setStats (updateStats count) s in
  let s := setHistoryRef (s.(historyRef) ++ [count]) s in
  let s := renderDetections people s in
  let s := alertStep c env count s in
  fpsStep env count s.

(** [runDetection], up to the scheduling of the next cycle. *)
Definition runDetection (c : Captured) (env : CycleEnv) (s : State) : State :=
  if negb c.(c_model) || negb c.(c_isMonitoring) || negb s.(videoRef) then s
  else if env.(readyState) =? 4 then
    match env.(detect) with
    | Some predictions => processFrame c env predictions s
    | None => s                           (* caught: cycle skipped *)
    end
  else s.

(** Delay before the next cycle is requested. *)
Definition cycleDelay (c : Captured) : Z :=
  match c.(c_detectionSpeed) with
  | FAST => 30
  | NORMAL => 100
  | ACCURATE => 250
  end.

(** ** Session handlers *)

(** [handleStartWebcam]; [granted] is the outcome of [getUserMedia]. *)
Definition handleStartWebcam (granted : bool) (st : Stamp)
    (s : State) : State :=
  if granted then
    if s.(videoRef) then
      setOnloadedmetadata (Some FromWebcam) (setVideoSource WebcamStream s)
    else s
  else addLog st "Failed to access camera. Check permissions." error s.

(** [handleUpload]; [file] is [e.target.files?.[0]]. *)
Definition handleUpload (file : option string) (s : State) : State :=
  match file with
  | Some name =>
      if s.(videoRef) then
        setOnloadedmetadata (Some (FromUpload name))
          (setVideoSource (FileUrl name) s)
      else s
  | None => s
  end.

(** The [onloadedmetadata] callback installed by either handler. *)
Definition loadedMetadata (now : Z) (st : Stamp) (s : State) : State :=
  match s.(onloadedmetadata) with
  | None => s
  | Some h =>
      let s := setIsMonitoring true s in
      let s :=
        setStats (fun p => mkStats p.(currentCount) p.(peakCount)
                             p.(avgCount) p.(totalDetections) (Some now)) s in
      match h with
      | FromWebcam => addLog st "Live monitoring started via webcam." success s
      | FromUpload name => addLog st (String.append "Processing video file: " name) info s
      end
  end.

Definition handleStop (st : Stamp) (s : State) : State :=
  let s := setIsMonitoring false s in
  let s := setIsRecording false s in
  let s := if s.(videoRef) then setVideoSource NoSource s else s in
  let s := setSessionDuration "00:00" s in
  addLog st "Monitoring halted." warning s.

(** What [takeScreenshot] reads from the browser. *)
Record ShotEnv := mkShotEnv
  { hasContext : bool;                    (* [getContext('2d')] non-null *)
    dataUrl : string;
    shotId : string;
    shotTime : string;
    shotStamp : Stamp }.

Definition takeScreenshot (env : ShotEnv) (s : State) : State :=
  if negb s.(videoRef) || negb s.(canvasRef) then s
  else if env.(hasContext) then
    let newShot :=
      Screenshot.mk env.(shotId) env.(dataUrl) env.(shotTime)
        s.(stats).(currentCount) in
    addLog env.(shotStamp) "Manual screenshot captured." success
      (setScreenshots (fun prev => newShot :: prev) s)
  else s.

(** [toggleRecording]; [now] is the [Date.now()] of the file name written
    by [recorder.onstop]. *)
Definition toggleRecording (now : Z) (st : Stamp) (s : State) : State :=
  if s.(isRecording) then
    let s :=
      match s.(mediaRecorderRef) with
      | Some RecRecording =>
          setDownloads (now :: s.(downloads))
            (setMediaRecorderRef (Some RecInactive) s)
      | _ => s
      end in
    addLog st "Recording saved." success (setIsRecording false s)
  else
    if negb s.(videoRef) || negb s.(canvasRef) then s
    else
      let s := setIsRecording true s in
      let s := addLog st "Video recording started." info s in
      setMediaRecorderRef (Some RecRecording) s.

(** ** Events *)

Inductive Event :=
| LoadModel (ok : bool) (st : Stamp)
| HandleStartWebcam (granted : bool) (st : Stamp)
| HandleUpload (file : option string)
| LoadedMetadata (now : Z) (st : Stamp)
| HandleStop (st : Stamp)
| TakeScreenshot (env : ShotEnv)
| ToggleRecording (now : Z) (st : Stamp)
| RunDetection (c : Captured) (env : CycleEnv)
| SessionTimerTick (now : Z)
| SetThreshold (v : Z)
| SetConfidence (v : float)
| SetDetectionSpeed (v : DetectionSpeed)
| ToggleSound.

(** The handler an event runs. *)
Definition step (e : Event) (s : State) : State :=
  match e with
  | LoadModel ok st => loadModel ok st s
  | HandleStartWebcam granted st => handleStartWebcam granted st s
  | HandleUpload file => handleUpload file s
  | LoadedMetadata now st => loadedMetadata now st s
  | HandleStop st => handleStop st s
  | TakeScreenshot env => takeScreenshot env s
  | ToggleRecording now st => toggleRecording now st s
  | RunDetection c env => runDetection c env s
  | SessionTimerTick now => sessionTimerTick now s
  | SetThreshold v => setThreshold v s
  | SetConfidence v => setConfidence v s
  | SetDetectionSpeed v => setDetectionSpeed v s
  | ToggleSound => setSoundEnabled (negb s.(soundEnabled)) s
  end.

(** The [disabled] attribute of the four buttons of the action bar; the
    other events are not behind a button. *)
Definition disabled (e : Event) (s : State) : bool :=
  match e with
  | HandleStartWebcam _ _ => s.(isMonitoring) || negb s.(isSystemReady)
  | HandleStop _ => negb s.(isMonitoring)
  | TakeScreenshot _ => negb s.(isMonitoring)
  | ToggleRecording _ _ => negb s.(isMonitoring)
  | _ => false
  end.

(** An event as the page delivers it: a click on a disabled button runs no
    handler. *)
Definition dispatch (e : Event) (s : State) : State :=
  if disabled e s then s else step e s.

(** Handlers run in sequence, without and with the button guards. *)
Definition runHandlers (es : list Event) (s : State) : State :=
  fold_left (fun s e => step e s) es s.

Definition runEvents (es : list Event) (s : State) : State :=
  fold_left (fun s e => dispatch e s) es s.

(** ** Runs

    Folds of the operations above over a sequence of inputs, oldest
    first. *)

(** The statistics after a run of detection cycles whose filtered counts
    are [counts].  A count is the length of an array. *)
Definition feedCounts (counts : list nat) (st : Stats) : Stats :=
  fold_left (fun st c => updateStats (Z.of_nat c) st) counts st.

(** Number of strictly positive counts. *)
Definition positives (counts : list nat) : nat :=
  List.length (filter (fun c => Nat.ltb 0 c) counts).

(** The chart after a run of appends. *)
Definition pushChartPoints (points : list ChartPoint.t)
    (prev : list ChartPoint.t) : list ChartPoint.t :=
  fold_left (fun buf p => pushChartPoint p buf) points prev.

(** A frame: what the cycle reads from the browser and what the model
    returns for it. *)
Definition Frame : Type := CycleEnv * list Detection.t.

(** A run of cycles that all reach the body of the [try] block. *)
Definition processFrames (c : Captured) (frames : list Frame)
    (s : State) : State :=
  fold_left (fun s fr => processFrame c (fst fr) (snd fr) s) frames s.

(** The detection cycles that deliver a run of frames. *)
Definition cycles (c : Captured) (frames : list Frame) : list Event :=
  map (fun fr => RunDetection c (fst fr)) frames.

(** The frame is what [model.detect] resolves to on a ready video. *)
Definition delivered (fr : Frame) : Prop :=
  readyState (fst fr) = 4 /\ detect (fst fr) = Some (snd fr).

(** The chart point a sampled frame contributes. *)
Definition chartPointOf (c : Captured) (fr : Frame) : ChartPoint.t :=
  ChartPoint.mk (chartTime (fst fr))
    (Z.of_nat (List.length (filterPeople c.(c_confidence) (snd fr)))).

(** Each frame's FPS clock reads one second after the previous sample,
    [t] being the time of the last sample before the run. *)
Fixpoint oneSecondApart (t : Z) (frames : list Frame) : Prop :=
  match frames with
  | [] => True
  | fr :: rest => fpsNow (fst fr) = t + 1000 /\ oneSecondApart (t + 1000) rest
  end.

(** ** Specification-side definitions *)

(** The firing condition in the words of the specification: alerts are
    enabled, the count has reached the threshold, and at least 2000 ms have
    passed since [lastFired]. *)
Definition alertDue (enabled : bool) (count threshold now lastFired : Z)
  : bool :=
  enabled && (threshold <=? count) && (2000 <=? now - lastFired).

(** The state once the siren has been started at [now]. *)
Definition fired (now : Z) (s : State) : State :=
  setSirens (now :: sirens s) (setLastAlertTime now s).

(** The fields that outlive a session: the counters and the cooldown. *)
Definition carried (s : State) : Z * Z * Z * Z * Z * list Z :=
  (currentCount (stats s), peakCount (stats s), totalDetections (stats s),
   avgCount (stats s), lastAlertTime s, sirens s).

(** ** Concrete inputs *)

(** The three detections of the filter example; the boxes play no role. *)
Definition box0 : float * float * float * float :=
  (0%float, 0%float, 0%float, 0%float).

Definition examplePredictions : list Detection.t :=
  [ Detection.mk box0 "person" 0.4%float;
    Detection.mk box0 "person" 0.6%float;
    Detection.mk box0 "car" 0.9%float ].

(** A frame content showing [n] people, each detected with score 0.9. *)
Definition crowd (n : nat) : list Detection.t :=
  repeat (Detection.mk box0 "person" 0.9%float) n.

(** The frames of a run of [n] cycles sampled at 1000, 2000, ... ms, the
    [i]-th showing [i] people. *)
Definition secondFrames (n : nat) : list Frame :=
  map (fun i =>
         (mkCycleEnv 4 (Some (crowd i)) (Z.of_nat i * 1000)
            (Z.of_nat i * 1000) (decimal (Z.of_nat i)),
          crowd i))
    (seq 1 n).

(** A log of exactly 100 entries, reached by 100 calls of [handleStop]
    stamped ["0"] to ["99"]. *)
Definition numberedStamp (i : nat) : Stamp :=
  mkStamp (decimal (Z.of_nat i)) "12:00:00".

Definition haltedEntry (i : nat) : LogEntry.t :=
  LogEntry.mk (decimal (Z.of_nat i)) "12:00:00" "Monitoring halted." warning.

Definition fullLogState : State :=
  runHandlers (map (fun i => HandleStop (numberedStamp i)) (seq 0 100))
    (initialState 0).

(** A monitoring state that has run 24 cycles since its last FPS sample at
    10 000 ms, and a cycle read at [now] that shows two people. *)
Definition monitoringState : State :=
  setFrameCountRef 24
    (setIsMonitoring true (setModel true (initialState 10000))).

Definition cycleAt (now : Z) : CycleEnv :=
  mkCycleEnv 4 (Some (crowd 2)) now now "12:00:11".

(** The alert scenario: threshold 3, sound alerts on, counts 0 4 5 4 0 4,
    the [i]-th frame read [500 * i] ms after [t0] and showing [n] people. *)
Definition scenarioCaptured : Captured :=
  mkCaptured true true 0.5%float 3 true NORMAL.

Definition scenarioCounts : list nat := [0; 4; 5; 4; 0; 4]%nat.

Definition scenarioFrame (t0 : Z) (i n : nat) : Frame :=
  (mkCycleEnv 4 (Some (crowd n)) (t0 + 500 * Z.of_nat i)
     (t0 + 500 * Z.of_nat i) "12:00:00",
   crowd n).

Definition scenarioFrames (t0 : Z) : list Frame :=
  map (fun '(i, n) => scenarioFrame t0 i n) (combine (seq 0 6) scenarioCounts).

(** A [Date.now()] of 2023-11-14, for a page running on a real clock. *)
Definition realClock : Z := 1700000000000.

Definition stamp0 : Stamp := mkStamp "k3j2x9q1z" "12:00:00".

(** ** Proof automation for handlers

    Handlers are compositions of setters under a few branches: unfold them,
    split the branches and compute the projections. *)

Ltac unfold_handlers :=
  unfold dispatch, step, loadModel, handleStartWebcam, handleUpload,
    loadedMetadata, handleStop, takeScreenshot, toggleRecording,
    runDetection, processFrame, fpsStep, alertStep, playAlertSound,
    renderDetections, sessionTimerTick, addLog.

(** Projections, setters and boolean connectives only: arithmetic and list
    operations stay folded. *)
Ltac state_simpl :=
  cbn [model isSystemReady isMonitoring isRecording stats chartData logs
       screenshots sessionDuration fps threshold confidence detectionSpeed
       soundEnabled videoRef canvasRef videoSource onloadedmetadata overlay
       mediaRecorderRef frameCountRef lastFpsTimeRef historyRef
       lastAlertTime sirens downloads
       currentCount peakCount avgCount totalDetections sessionStartTime
       setModel setIsSystemReady setIsMonitoring setIsRecording setStats
       setChartData setLogs setScreenshots setSessionDuration setFps
       setThreshold setConfidence setDetectionSpeed setSoundEnabled
       setVideoSource setOnloadedmetadata setOverlay setMediaRecorderRef
       setFrameCountRef setLastFpsTimeRef setHistoryRef setLastAlertTime
       setSirens setDownloads updateStats
       c_model c_isMonitoring c_confidence c_threshold c_soundEnabled
       c_detectionSpeed readyState detect alertNow fpsNow chartTime
       hasContext dataUrl shotId shotTime shotStamp randomId localeTime
       negb orb andb] in *.

Ltac break_branch :=
  match goal with
  | |- context [if ?b then _ else _] => destruct b eqn:?
  | |- context [match ?x with _ => _ end] => destruct x eqn:?
  end.

Ltac handler_cases :=
  unfold_handlers; state_simpl; repeat (break_branch; state_simpl).

(** ** Derived displays

    Values the JSX computes from the state on each render. *)

(** The header status next to the indicator dot. *)
Definition headerStatus (s : State) : string :=
  if s.(threshold) <=? s.(stats).(currentCount)
  then "Crowd Alert"
  else "Normal Activity".

(** Whether the bottom "Crowd Warning" banner is rendered. *)
Definition alertBanner (s : State) : bool :=
  s.(isMonitoring) && (s.(threshold) <=? s.(stats).(currentCount)).

(** ** Predicates on states and events *)

(** The cycle passes its guards, finds the video ready and gets a result
    from [model.detect]. *)
Definition cycleRuns (c : Captured) (env : CycleEnv) (s : State) : bool :=
  c.(c_model) && c.(c_isMonitoring) && s.(videoRef)
  && (env.(readyState) =? 4)
  && match env.(detect) with Some _ => true | None => false end.

(** Times, newest first, each at least 2000 ms after the one before it, the
    oldest at least 2000 ms after 0. *)
Fixpoint spaced (times : list Z) : Prop :=
  match times with
  | [] => True
  | t :: older => 2000 <= t - hd 0 older /\ spaced older
  end.

Definition isUpload (e : Event) : bool :=
  match e with
  | HandleUpload _ => true
  | _ => false
  end.

(** The largest and the number of positive entries of a history of
    counts. *)
Definition historyPeak (history : list Z) : Z := fold_right Z.max 0 history.

Definition historyPositives (history : list Z) : Z :=
  Z.of_nat (List.length (filter (fun c => 0 <? c) history)).

(** The decimal digit [z] and the two-digit rendering of [z]. *)
Definition digit (z : Z) : Ascii.ascii := Ascii.ascii_of_nat (48 + Z.to_nat z).

Definition twoDigits (z : Z) : string :=
  String (digit (z / 10)) (String (digit (z mod 10)) EmptyString).

(** A monitoring page that is recording, reached through the buttons. *)
Definition recordingEvents : list Event :=
  [ LoadModel true stamp0;
    HandleStartWebcam true stamp0;
    LoadedMetadata realClock stamp0;
    ToggleRecording realClock stamp0 ].

(** ** Invariants of the reachable states *)

(** The statistics summarise the history of counts. *)
Definition historyInv (s : State) : Prop :=
  currentCount (stats s) = last (historyRef s) 0
  /\ peakCount (stats s) = historyPeak (historyRef s)
  /\ totalDetections (stats s) = historyPositives (historyRef s)
  /\ Forall (fun c => 0 <= c) (historyRef s).

(** Nothing recorded in [s] is lost or lowered in [s']: the two counters
    are at least what they were, [historyRef] has only been appended to,
    and the sirens, screenshots and saved recordings, all newest first,
    have only been prepended to. *)
Definition grows (s s' : State) : Prop :=
  peakCount (stats s) <= peakCount (stats s')
  /\ totalDetections (stats s) <= totalDetections (stats s')
  /\ (exists added, historyRef s' = historyRef s ++ added)
  /\ (exists added, sirens s' = added ++ sirens s)
  /\ (exists added, screenshots s' = added ++ screenshots s)
  /\ (exists added, downloads s' = added ++ downloads s).

(** Every count on record lies between 0 and the peak. *)
Definition underPeak (s : State) : Prop :=
  0 <= currentCount (stats s) <= peakCount (stats s)
  /\ Forall (fun shot => 0 <= Screenshot.count shot <= peakCount (stats s))
       (screenshots s)
  /\ Forall (fun p => 0 <= ChartPoint.count p <= peakCount (stats s))
       (chartData s).

(** The cooldown timestamp is the latest siren, and sirens are spaced. *)
Definition cooldownInv (s : State) : Prop :=
  lastAlertTime s = hd 0 (sirens s) /\ spaced (sirens s).

(** Frame counter and fps are not negative. *)
Definition fpsInv (s : State) : Prop := 0 <= frameCountRef s /\ 0 <= fps s.

(** Recording implies monitoring with a running recorder. *)
Definition recordingInv (s : State) : Prop :=
  isRecording s = true ->
  isMonitoring s = true /\ mediaRecorderRef s = Some RecRecording.

(** Readiness mirrors the model; monitoring has a session start. *)
Definition readyInv (s : State) : Prop :=
  model s = isSystemReady s
  /\ (isMonitoring s = false \/ exists t, sessionStartTime (stats s) = Some t).

(** Without uploads only the webcam handler is installed, and only once
    the model is there. *)
Definition webcamOnlyInv (s : State) : Prop :=
  model s = isSystemReady s
  /\ (onloadedmetadata s = None
      \/ (onloadedmetadata s = Some FromWebcam /\ model s = true))
  /\ (isMonitoring s = false \/ model s = true).

(** No log entry has type [alert]. *)
Definition noAlertEntries (s : State) : Prop :=
  Forall (fun entry => LogEntry.type entry <> alert) (logs s).

(** The overlay holds detections of people only. *)
Definition overlayInv (s : State) : Prop :=
  Forall (fun d => Detection.class d = "person") (overlay s).

(** * Properties *)

(** ** Statistics *)

Section StatsFacts.

Variable st : Stats.

Lemma feedCounts_snoc (counts : list nat) (c : nat) :
  feedCounts (counts ++ [c]) st
  = updateStats (Z.of_nat c) (feedCounts counts st).
Proof. unfold feedCounts. now rewrite fold_left_app. Qed.

Lemma feedCounts_peak (counts : list nat) :
  0 <= peakCount st ->
  peakCount (feedCounts counts st)
  = Z.max (peakCount st) (Z.of_nat (list_max counts)).
Proof.
  intros Hpeak.
  induction counts as [|c counts IH] using rev_ind.
  - cbn. lia.
  - rewrite feedCounts_snoc. cbn [updateStats peakCount]. rewrite IH.
    rewrite list_max_app. cbn [list_max fold_right]. lia.
Qed.

Lemma feedCounts_total (counts : list nat) :
  totalDetections (feedCounts counts st)
  = totalDetections st + Z.of_nat (positives counts).
Proof.
  induction counts as [|c counts IH] using rev_ind.
  - cbn. lia.
  - rewrite feedCounts_snoc. cbn [updateStats totalDetections]. rewrite IH.
    unfold positives. rewrite filter_app, length_app. cbn [filter].
    destruct c as [|c]; cbn; lia.
Qed.

Lemma feedCounts_avg (counts : list nat) :
  avgCount (feedCounts counts st) = avgCount st.
Proof.
  induction counts as [|c counts IH] using rev_ind.
  - reflexivity.
  - rewrite feedCounts_snoc. exact IH.
Qed.

End StatsFacts.

(** The statistics a completed cycle leaves are the updater applied to the
    filtered count. *)
Lemma processFrame_stats c env predictions s :
  stats (processFrame c env predictions s)
  = updateStats (Z.of_nat (List.length (filterPeople c.(c_confidence) predictions)))
      (stats s).
Proof.
  unfold processFrame, fpsStep, alertStep, playAlertSound, renderDetections.
  repeat match goal with |- context [if ?b then _ else _] => destruct b end;
    reflexivity.
Qed.

(** C1. After any sequence of counts fed to the [setStats] updater,
    starting from the initial statistics, [peakCount] is the maximum of the
    counts seen so far; one more update never lowers it; and after an
    update [peakCount >= currentCount].  The last two hold from any
    statistics and for any count. *)
Theorem peakCount_running_max :
  (forall counts : list nat,
      peakCount (feedCounts counts initialStats) = Z.of_nat (list_max counts))
  /\ (forall (prev : Stats) (count : Z),
         peakCount prev <= peakCount (updateStats count prev))
  /\ (forall (prev : Stats) (count : Z),
         currentCount (updateStats count prev)
         <= peakCount (updateStats count prev))
  /\ (forall c env predictions s,
         peakCount (stats s)
         <= peakCount (stats (processFrame c env predictions s))
         /\ currentCount (stats (processFrame c env predictions s))
            <= peakCount (stats (processFrame c env predictions s))).
Proof.
  split; [|split; [|split]].
  - intros counts. rewrite feedCounts_peak; cbn; lia.
  - intros prev count. cbn. lia.
  - intros prev count. cbn. lia.
  - intros c env predictions s. rewrite processFrame_stats. cbn. lia.
Qed.

(** C2. [totalDetections] counts the updates whose count was strictly
    positive: each update adds exactly 1 when [count > 0] and 0 otherwise,
    whatever the size of the count. *)
Theorem totalDetections_counts_positive_updates :
  (forall counts : list nat,
      totalDetections (feedCounts counts initialStats)
      = Z.of_nat (positives counts))
  /\ (forall (prev : Stats) (count : Z),
         totalDetections (updateStats count prev)
         = totalDetections prev + (if 0 <? count then 1 else 0))
  /\ (forall c env predictions s,
         let count :=
           Z.of_nat (List.length (filterPeople c.(c_confidence) predictions)) in
         totalDetections (stats (processFrame c env predictions s))
         = totalDetections (stats s) + (if 0 <? count then 1 else 0)).
Proof.
  split; [|split].
  - intros counts. rewrite feedCounts_total. reflexivity.
  - reflexivity.
  - intros c env predictions s count. rewrite processFrame_stats. reflexivity.
Qed.

(** ** Detection filter *)

Lemma isPerson_true confidence p :
  isPerson confidence p = true
  <-> Detection.class p = "person"
      /\ PrimFloat.leb confidence (Detection.score p) = true.
Proof.
  unfold isPerson. rewrite andb_true_iff, String.eqb_eq. reflexivity.
Qed.

(** C7. The filter keeps exactly the detections of class ["person"] whose
    score is at least the cutoff, in their order; the count is the length
    of the kept list, and both are what a cycle hands to the overlay and
    the statistics.  On the example the result is the single detection of
    score 0.6; on no detections it is empty. *)
Theorem filterPeople_keeps_confident_persons :
  (forall confidence predictions p,
      In p (filterPeople confidence predictions)
      <-> In p predictions
          /\ Detection.class p = "person"
          /\ PrimFloat.leb confidence (Detection.score p) = true)
  /\ (forall confidence l1 l2,
         filterPeople confidence (l1 ++ l2)
         = filterPeople confidence l1 ++ filterPeople confidence l2)
  /\ (forall confidence p,
         filterPeople confidence [p]
         = if isPerson confidence p then [p] else [])
  /\ (forall c env predictions s,
         currentCount (stats (processFrame c env predictions s))
         = Z.of_nat (List.length (filterPeople c.(c_confidence) predictions))
         /\ overlay (processFrame c env predictions s)
            = if negb s.(canvasRef) || negb s.(videoRef) then overlay s
              else filterPeople c.(c_confidence) predictions)
  /\ filterPeople 0.5%float examplePredictions
     = [Detection.mk box0 "person" 0.6%float]
  /\ List.length (filterPeople 0.5%float examplePredictions) = 1%nat
  /\ (forall confidence,
         filterPeople confidence [] = []
         /\ List.length (filterPeople confidence []) = 0%nat).
Proof.
  split; [|split; [|split; [|split; [|split; [|split]]]]].
  - intros confidence predictions p. unfold filterPeople.
    rewrite filter_In, isPerson_true. reflexivity.
  - intros confidence l1 l2. apply filter_app.
  - reflexivity.
  - intros c env predictions s. split.
    + rewrite processFrame_stats. reflexivity.
    + unfold processFrame, fpsStep, alertStep, playAlertSound,
        renderDetections.
      cbn.
      repeat match goal with
             | |- context [if ?b then _ else _] => destruct b
             end; reflexivity.
  - reflexivity.
  - reflexivity.
  - intros confidence. split; reflexivity.
Qed.

(** ** Bounded buffers *)

Section Slices.

Context {A : Type}.

Lemma sliceLast_length (n : nat) (a : list A) :
  List.length (sliceLast n a) = Nat.min n (List.length a).
Proof. unfold sliceLast. rewrite length_skipn. lia. Qed.

Lemma sliceLast_short (n : nat) (a : list A) :
  (List.length a <= n)%nat -> sliceLast n a = a.
Proof.
  intros H. unfold sliceLast.
  replace (List.length a - n)%nat with 0%nat by lia. reflexivity.
Qed.

(** Trimming before an append does not change what is kept after it. *)
Lemma sliceLast_push (n : nat) (a : list A) (x : A) :
  sliceLast (S n) (sliceLast (S n) a ++ [x]) = sliceLast (S n) (a ++ [x]).
Proof.
  destruct (Nat.le_gt_cases (List.length a) (S n)) as [Hle|Hgt].
  - now rewrite (sliceLast_short a Hle).
  - unfold sliceLast at 1 3. rewrite !length_app.
    cbn [List.length].
    replace (List.length (sliceLast (S n) a) + 1 - S n)%nat with 1%nat
      by (rewrite sliceLast_length; lia).
    replace (List.length a + 1 - S n)%nat
      with (1 + (List.length a - S n))%nat by lia.
    rewrite <- skipn_skipn. unfold sliceLast.
    rewrite (skipn_app (List.length a - S n) a [x]).
    replace (List.length a - S n - List.length a)%nat with 0%nat by lia.
    reflexivity.
Qed.

Lemma sliceTo_length (n : nat) (a : list A) :
  List.length (sliceTo n a) = Nat.min n (List.length a).
Proof. apply length_firstn. Qed.

End Slices.

Lemma pushChartPoints_snoc points p prev :
  pushChartPoints (points ++ [p]) prev
  = pushChartPoint p (pushChartPoints points prev).
Proof. unfold pushChartPoints. now rewrite fold_left_app. Qed.

Lemma pushChartPoints_last30 points :
  pushChartPoints points [] = sliceLast 30 points.
Proof.
  induction points as [|p points IH] using rev_ind.
  - reflexivity.
  - rewrite pushChartPoints_snoc, IH. unfold pushChartPoint.
    apply sliceLast_push.
Qed.

(** ** Frame lemmas: what each handler leaves alone *)

Lemma step_avgCount e s : avgCount (stats (step e s)) = avgCount (stats s).
Proof. destruct e, s; handler_cases; reflexivity. Qed.

Lemma step_chartData e s :
  chartData (step e s) = chartData s
  \/ exists p, chartData (step e s) = pushChartPoint p (chartData s).
Proof.
  destruct e, s; handler_cases;
    solve [left; reflexivity | right; eexists; reflexivity].
Qed.

Lemma dispatch_step_or_skip e s : dispatch e s = step e s \/ dispatch e s = s.
Proof. unfold dispatch. destruct (disabled e s); auto. Qed.

Lemma pushChartPoint_length p prev :
  (List.length (pushChartPoint p prev) <= 30)%nat.
Proof. unfold pushChartPoint. rewrite sliceLast_length. lia. Qed.

Lemma runHandlers_snoc es e s :
  runHandlers (es ++ [e]) s = step e (runHandlers es s).
Proof. unfold runHandlers. now rewrite fold_left_app. Qed.

Lemma runEvents_snoc es e s :
  runEvents (es ++ [e]) s = dispatch e (runEvents es s).
Proof. unfold runEvents. now rewrite fold_left_app. Qed.

Lemma step_logs e s :
  logs (step e s) = logs s
  \/ exists entry, logs (step e s) = sliceTo 100 (entry :: logs s).
Proof.
  destruct e, s; handler_cases;
    solve [left; reflexivity | right; eexists; reflexivity].
Qed.

(** Only a detection cycle writes the counters or the cooldown timestamp. *)
Lemma step_counters e s :
  (currentCount (stats (step e s)) = currentCount (stats s)
   /\ peakCount (stats (step e s)) = peakCount (stats s)
   /\ totalDetections (stats (step e s)) = totalDetections (stats s)
   /\ lastAlertTime (step e s) = lastAlertTime s
   /\ sirens (step e s) = sirens s)
  \/ exists c env, e = RunDetection c env.
Proof.
  destruct e; try (right; eauto; fail); left;
    destruct s; handler_cases; repeat split; reflexivity.
Qed.

(** ** The FPS step *)

Lemma processFrame_sampled c env predictions s :
  1000 <= fpsNow env - lastFpsTimeRef s ->
  let count :=
    Z.of_nat (List.length (filterPeople c.(c_confidence) predictions)) in
  fps (processFrame c env predictions s)
  = mathRoundDiv ((frameCountRef s + 1) * 1000) (fpsNow env - lastFpsTimeRef s)
  /\ frameCountRef (processFrame c env predictions s) = 0
  /\ lastFpsTimeRef (processFrame c env predictions s) = fpsNow env
  /\ chartData (processFrame c env predictions s)
     = pushChartPoint (ChartPoint.mk (chartTime env) count) (chartData s).
Proof.
  intros H count. subst count. destruct s, c, env. state_simpl.
  handler_cases; repeat split; try reflexivity; lia.
Qed.

Lemma processFrame_not_sampled c env predictions s :
  fpsNow env - lastFpsTimeRef s < 1000 ->
  fps (processFrame c env predictions s) = fps s
  /\ frameCountRef (processFrame c env predictions s) = frameCountRef s + 1
  /\ lastFpsTimeRef (processFrame c env predictions s) = lastFpsTimeRef s
  /\ chartData (processFrame c env predictions s) = chartData s.
Proof.
  intros H. destruct s, c, env. state_simpl.
  handler_cases; repeat split; try reflexivity; lia.
Qed.

(** [Math.round] of a quotient is the integer within one half of it,
    the upper one on a tie. *)
Lemma mathRoundDiv_nearest a b :
  0 < b ->
  2 * b * mathRoundDiv a b <= 2 * a + b < 2 * b * (mathRoundDiv a b + 1).
Proof.
  intros Hb. unfold mathRoundDiv.
  assert (Hb2 : 0 < 2 * b) by lia.
  pose proof (Z.mul_div_le (2 * a + b) (2 * b) Hb2).
  pose proof (Z.mul_succ_div_gt (2 * a + b) (2 * b) Hb2).
  lia.
Qed.

(** ** Runs of completed cycles *)

Lemma processFrames_chart c frames :
  forall s,
    oneSecondApart (lastFpsTimeRef s) frames ->
    chartData (processFrames c frames s)
    = pushChartPoints (map (chartPointOf c) frames) (chartData s).
Proof.
  induction frames as [|[env predictions] frames IH]; intros s Hsp.
  - reflexivity.
  - destruct Hsp as [Hnow Hrest]. cbn [fst] in Hnow.
    destruct (processFrame_sampled c env predictions s) as (_ & _ & Hlast & Hchart);
      [lia|].
    cbn [processFrames fold_left map pushChartPoints fst snd].
    fold (processFrames c frames (processFrame c env predictions s)).
    rewrite IH.
    + rewrite Hchart. reflexivity.
    + rewrite Hlast, Hnow. exact Hrest.
Qed.

(** C5. The trend buffer holds at most 30 points after every append and in
    every state the handlers can reach; a run of appends from the empty
    buffer leaves the last 30 points appended, so after 31 appends the
    first point is gone and the other 30 remain in order; and a run of
    completed cycles sampled one second apart leaves the last 30 sampled
    points. *)
Theorem chartData_keeps_last_30 :
  (forall point prev, (List.length (pushChartPoint point prev) <= 30)%nat)
  /\ (forall points,
         pushChartPoints points [] = sliceLast 30 points
         /\ (List.length (pushChartPoints points []) <= 30)%nat)
  /\ (forall first rest,
         List.length rest = 30%nat ->
         pushChartPoints (first :: rest) [] = rest)
  /\ (forall es mountTime,
         (List.length (chartData (runHandlers es (initialState mountTime)))
          <= 30)%nat
         /\ (List.length (chartData (runEvents es (initialState mountTime)))
             <= 30)%nat)
  /\ (forall c frames s,
         chartData s = [] ->
         oneSecondApart (lastFpsTimeRef s) frames ->
         chartData (processFrames c frames s)
         = sliceLast 30 (map (chartPointOf c) frames)).
Proof.
  split; [|split; [|split; [|split]]].
  - apply pushChartPoint_length.
  - intros points. rewrite pushChartPoints_last30, sliceLast_length.
    split; [reflexivity|lia].
  - intros first rest Hlen. rewrite pushChartPoints_last30.
    unfold sliceLast. cbn [List.length]. rewrite Hlen. reflexivity.
  - intros es mountTime. split.
    + induction es as [|e es IH] using rev_ind; [cbn; lia|].
      rewrite runHandlers_snoc.
      destruct (step_chartData e (runHandlers es (initialState mountTime)))
        as [-> | [p ->]]; [exact IH | apply pushChartPoint_length].
    + induction es as [|e es IH] using rev_ind; [cbn; lia|].
      rewrite runEvents_snoc.
      destruct (dispatch_step_or_skip e (runEvents es (initialState mountTime)))
        as [-> | ->]; [|exact IH].
      destruct (step_chartData e (runEvents es (initialState mountTime)))
        as [-> | [p ->]]; [exact IH | apply pushChartPoint_length].
  - intros c frames s Hempty Hsp.
    rewrite (processFrames_chart c frames s Hsp), Hempty.
    apply pushChartPoints_last30.
Qed.

Lemma chartData_keeps_last_30_witness :
  chartData (processFrames (capture (initialState 0)) (secondFrames 31)
               (initialState 0))
  = sliceLast 30
      (map (chartPointOf (capture (initialState 0))) (secondFrames 31))
  /\ pushChartPoints
       (map (chartPointOf (capture (initialState 0))) (secondFrames 31)) []
     = map (chartPointOf (capture (initialState 0))) (tl (secondFrames 31)).
Proof.
  destruct chartData_keeps_last_30 as (_ & _ & Hevict & _ & Hrun).
  split.
  - apply Hrun.
    + reflexivity.
    + cbn. repeat split.
  - exact (Hevict
             (chartPointOf (capture (initialState 0))
                (mkCycleEnv 4 (Some (crowd 1)) 1000 1000 "1", crowd 1))
             (map (chartPointOf (capture (initialState 0)))
                (tl (secondFrames 31)))
             eq_refl).
Defined.

(** C6. [addLog] puts the new entry first and keeps the first 100: the log
    is never longer than 100; below the cap the old entries all follow the
    new one; at the cap the oldest (last) one is dropped and the other 99
    follow the new one in their order, for a length of exactly 100. *)
Theorem addLog_newest_first_capped st message type s :
  let entry := LogEntry.mk (randomId st) (localeTime st) message type in
  let logs' := logs (addLog st message type s) in
  logs' = entry :: sliceTo 99 (logs s)
  /\ hd_error logs' = Some entry
  /\ List.length logs' = Nat.min 100 (S (List.length (logs s)))
  /\ ((List.length (logs s) < 100)%nat -> logs' = entry :: logs s)
  /\ (forall older oldest,
         logs s = older ++ [oldest] ->
         List.length older = 99%nat ->
         logs' = entry :: older /\ List.length logs' = 100%nat)
  /\ (forall es mountTime,
         (List.length (logs (runHandlers es (initialState mountTime)))
          <= 100)%nat).
Proof.
  intros entry logs'. subst logs'. unfold addLog. state_simpl.
  fold entry. unfold sliceTo.
  change (firstn 100 (entry :: logs s)) with (entry :: firstn 99 (logs s)).
  split; [reflexivity|]. split; [reflexivity|].
  split; [cbn [List.length]; rewrite length_firstn; lia|].
  split; [|split].
  - intros Hlt. rewrite firstn_all2 by lia. reflexivity.
  - intros older oldest Heq Hlen. rewrite Heq.
    rewrite firstn_app, firstn_all2 by lia.
    replace (99 - List.length older)%nat with 0%nat by lia.
    cbn [firstn List.length]. rewrite app_nil_r. split; [reflexivity|lia].
  - intros es mountTime.
    induction es as [|e es IH] using rev_ind; [cbn; lia|].
    rewrite runHandlers_snoc.
    destruct (step_logs e (runHandlers es (initialState mountTime)))
      as [-> | [x ->]]; [exact IH|].
    rewrite sliceTo_length. lia.
Qed.

Lemma addLog_newest_first_capped_witness :
  logs fullLogState = map haltedEntry (rev (seq 1 99)) ++ [haltedEntry 0]
  /\ logs (addLog (numberedStamp 100) "Monitoring halted." warning fullLogState)
     = haltedEntry 100 :: map haltedEntry (rev (seq 1 99))
  /\ List.length
       (logs (addLog (numberedStamp 100) "Monitoring halted." warning
                fullLogState)) = 100%nat
  /\ logs (addLog stamp0 "Monitoring halted." warning (initialState 0))
     = [LogEntry.mk "k3j2x9q1z" "12:00:00" "Monitoring halted." warning].
Proof.
  split; [reflexivity|].
  destruct (addLog_newest_first_capped (numberedStamp 100)
              "Monitoring halted." warning fullLogState)
    as (_ & _ & _ & _ & H & _).
  destruct (addLog_newest_first_capped stamp0 "Monitoring halted." warning
              (initialState 0))
    as (_ & _ & _ & Hbelow & _).
  split; [|split].
  - apply (H (map haltedEntry (rev (seq 1 99))) (haltedEntry 0)); reflexivity.
  - apply (H (map haltedEntry (rev (seq 1 99))) (haltedEntry 0)); reflexivity.
  - apply Hbelow. cbn. lia.
Defined.

(** ** FPS telemetry *)

Lemma runDetection_completed c env predictions s :
  c_model c = true ->
  c_isMonitoring c = true ->
  videoRef s = true ->
  readyState env = 4 ->
  detect env = Some predictions ->
  runDetection c env s = processFrame c env predictions s.
Proof.
  intros Hm Hmon Hv Hr Hd. unfold runDetection.
  rewrite Hm, Hmon, Hv, Hr, Hd. reflexivity.
Qed.

(** C8. In a cycle that ran its detection (guards passed, the video was
    ready, [model.detect] resolved): when at least 1000 ms have passed since
    the last FPS sample, the reported fps is the rounded quotient of the
    incremented frame counter times 1000 by the elapsed time, the counter
    is back to 0, the sample time is now, and the point
    (formatted time, current count) is appended to the trend buffer, cut
    to its last 30; otherwise fps, sample time and buffer are unchanged and
    the counter has grown by one. *)
Theorem fps_sampled_once_per_second c env predictions s :
  c_model c = true ->
  c_isMonitoring c = true ->
  videoRef s = true ->
  readyState env = 4 ->
  detect env = Some predictions ->
  let s' := runDetection c env s in
  let elapsed := fpsNow env - lastFpsTimeRef s in
  let frames := frameCountRef s + 1 in
  (1000 <= elapsed ->
   fps s' = mathRoundDiv (frames * 1000) elapsed
   /\ 2 * elapsed * fps s' <= 2 * (frames * 1000) + elapsed
      < 2 * elapsed * (fps s' + 1)
   /\ frameCountRef s' = 0
   /\ lastFpsTimeRef s' = fpsNow env
   /\ chartData s'
      = sliceLast 30
          (chartData s
           ++ [ChartPoint.mk (chartTime env) (currentCount (stats s'))]))
  /\ (elapsed < 1000 ->
      fps s' = fps s
      /\ chartData s' = chartData s
      /\ frameCountRef s' = frameCountRef s + 1
      /\ lastFpsTimeRef s' = lastFpsTimeRef s).
Proof.
  intros Hm Hmon Hv Hr Hd s' elapsed frames. subst s' elapsed frames.
  rewrite (runDetection_completed c env s Hm Hmon Hv Hr Hd).
  split; intros Hel.
  - destruct (processFrame_sampled c env predictions s Hel)
      as (Hfps & Hcnt & Hlast & Hchart).
    rewrite Hfps, Hcnt, Hlast, Hchart, processFrame_stats.
    repeat split; try reflexivity;
      apply (mathRoundDiv_nearest ((frameCountRef s + 1) * 1000)); lia.
  - destruct (processFrame_not_sampled c env predictions s Hel)
      as (Hfps & Hcnt & Hlast & Hchart).
    rewrite Hfps, Hcnt, Hlast, Hchart. repeat split.
Qed.

Lemma fps_sampled_once_per_second_witness :
  (fps (runDetection (capture monitoringState) (cycleAt 11000) monitoringState)
   = 25
   /\ frameCountRef
        (runDetection (capture monitoringState) (cycleAt 11000) monitoringState)
      = 0
   /\ chartData
        (runDetection (capture monitoringState) (cycleAt 11000) monitoringState)
      = [ChartPoint.mk "12:00:11" 2])
  /\ (fps (runDetection (capture monitoringState) (cycleAt 10400)
             monitoringState) = 0
      /\ frameCountRef
           (runDetection (capture monitoringState) (cycleAt 10400)
              monitoringState) = 25).
Proof.
  split.
  - destruct (fps_sampled_once_per_second (capture monitoringState)
                (cycleAt 11000) monitoringState
                eq_refl eq_refl eq_refl eq_refl eq_refl) as [H _].
    destruct (H ltac:(cbn; lia)) as (Hfps & _ & Hcnt & _ & Hchart).
    rewrite Hfps, Hcnt, Hchart. repeat split.
  - destruct (fps_sampled_once_per_second (capture monitoringState)
                (cycleAt 10400) monitoringState
                eq_refl eq_refl eq_refl eq_refl eq_refl) as [_ H].
    destruct (H ltac:(cbn; lia)) as (Hfps & _ & Hcnt & _).
    rewrite Hfps, Hcnt. repeat split.
Defined.

(** ** Alert gate *)

Lemma alertStep_spec c env count s :
  alertStep c env count s
  = if alertDue (c_soundEnabled c) count (c_threshold c) (alertNow env)
         (lastAlertTime s)
    then fired (alertNow env) s
    else s.
Proof.
  unfold alertStep, playAlertSound, alertDue, fired.
  destruct (c_soundEnabled c), (c_threshold c <=? count); cbn [andb];
    try reflexivity.
  destruct (Z.ltb_spec (alertNow env - lastAlertTime s) 2000),
    (Z.leb_spec 2000 (alertNow env - lastAlertTime s));
    try reflexivity; lia.
Qed.

(** The alert step of a completed cycle, seen on the two fields it writes. *)
Lemma processFrame_alert c env predictions s :
  let count :=
    Z.of_nat (List.length (filterPeople c.(c_confidence) predictions)) in
  let due :=
    alertDue (c_soundEnabled c) count (c_threshold c) (alertNow env)
      (lastAlertTime s) in
  sirens (processFrame c env predictions s)
  = (if due then alertNow env :: sirens s else sirens s)
  /\ lastAlertTime (processFrame c env predictions s)
     = (if due then alertNow env else lastAlertTime s).
Proof.
  intros count due. subst count due. unfold processFrame.
  rewrite alertStep_spec.
  unfold fpsStep, renderDetections, fired. state_simpl.
  repeat (break_branch; state_simpl); split;
    first [reflexivity | congruence].
Qed.

(** ** Stop, restart and reachable states *)

Lemma handleStop_carried st s : carried (handleStop st s) = carried s.
Proof. destruct s. handler_cases; reflexivity. Qed.

Lemma handleStartWebcam_carried granted st s :
  carried (handleStartWebcam granted st s) = carried s.
Proof. destruct s. handler_cases; reflexivity. Qed.

Lemma handleUpload_carried file s : carried (handleUpload file s) = carried s.
Proof. destruct s. handler_cases; reflexivity. Qed.

Lemma loadedMetadata_carried now st s :
  carried (loadedMetadata now st s) = carried s.
Proof. destruct s. handler_cases; reflexivity. Qed.

(** What the first cycle after a restart computes depends on the carried
    fields only. *)
Lemma carried_next_cycle c env predictions s s' :
  carried s' = carried s ->
  let count :=
    Z.of_nat (List.length (filterPeople c.(c_confidence) predictions)) in
  peakCount (stats (processFrame c env predictions s'))
  = Z.max (peakCount (stats s)) count
  /\ totalDetections (stats (processFrame c env predictions s'))
     = totalDetections (stats s) + (if 0 <? count then 1 else 0)
  /\ sirens (processFrame c env predictions s')
     = if alertDue (c_soundEnabled c) count (c_threshold c) (alertNow env)
            (lastAlertTime s)
       then alertNow env :: sirens s
       else sirens s.
Proof.
  intros Hc count. unfold carried in Hc. injection Hc as _ Hp Ht _ Hl Hs.
  rewrite processFrame_stats.
  destruct (processFrame_alert c env predictions s') as [Hsir _].
  rewrite Hsir. cbn [updateStats peakCount totalDetections].
  rewrite Hp, Ht, Hl, Hs. repeat split.
Qed.

(** C9. [handleStop] leaves the statistics, the cooldown timestamp and the
    sirens as they were.  A stop followed by a start (webcam or upload)
    keeps [currentCount], [peakCount] and [totalDetections], so the next
    cycle continues from the old peak and total; and the cooldown gate of
    the first cycle after the restart still measures from the alert
    before the stop.  Of all events only a detection cycle writes the
    counters or [lastAlertTime]. *)
Theorem handleStop_keeps_stats_and_cooldown :
  (forall st s,
      stats (handleStop st s) = stats s
      /\ lastAlertTime (handleStop st s) = lastAlertTime s
      /\ sirens (handleStop st s) = sirens s)
  /\ (forall st st1 st2 granted file now c env predictions s,
         let restarts :=
           [ loadedMetadata now st2
               (handleStartWebcam granted st1 (handleStop st s));
             loadedMetadata now st2 (handleUpload file (handleStop st s)) ] in
         Forall
           (fun s' =>
              currentCount (stats s') = currentCount (stats s)
              /\ peakCount (stats s') = peakCount (stats s)
              /\ totalDetections (stats s') = totalDetections (stats s)
              /\ lastAlertTime s' = lastAlertTime s
              /\ let count :=
                   Z.of_nat
                     (List.length
                        (filterPeople c.(c_confidence) predictions)) in
                 peakCount (stats (processFrame c env predictions s'))
                 = Z.max (peakCount (stats s)) count
                 /\ totalDetections (stats (processFrame c env predictions s'))
                    = totalDetections (stats s)
                      + (if 0 <? count then 1 else 0)
                 /\ sirens (processFrame c env predictions s')
                    = if alertDue (c_soundEnabled c) count (c_threshold c)
                           (alertNow env) (lastAlertTime s)
                      then alertNow env :: sirens s
                      else sirens s)
           restarts)
  /\ (forall e s,
         (currentCount (stats (step e s)) = currentCount (stats s)
          /\ peakCount (stats (step e s)) = peakCount (stats s)
          /\ totalDetections (stats (step e s)) = totalDetections (stats s)
          /\ lastAlertTime (step e s) = lastAlertTime s
          /\ sirens (step e s) = sirens s)
         \/ exists c env, e = RunDetection c env).
Proof.
  split; [|split].
  - intros st s. destruct s. handler_cases; repeat split.
  - intros st st1 st2 granted file now c env predictions s restarts.
    subst restarts.
    assert (H1 : carried (loadedMetadata now st2
                            (handleStartWebcam granted st1 (handleStop st s)))
                 = carried s)
      by now rewrite loadedMetadata_carried, handleStartWebcam_carried,
           handleStop_carried.
    assert (H2 : carried (loadedMetadata now st2
                            (handleUpload file (handleStop st s)))
                 = carried s)
      by now rewrite loadedMetadata_carried, handleUpload_carried,
           handleStop_carried.
    repeat apply Forall_cons; try apply Forall_nil.
    + pose proof (carried_next_cycle c env predictions H1) as Hn.
      unfold carried in H1. injection H1 as Hc Hp Ht _ Hl _.
      repeat split; try assumption; apply Hn.
    + pose proof (carried_next_cycle c env predictions H2) as Hn.
      unfold carried in H2. injection H2 as Hc Hp Ht _ Hl _.
      repeat split; try assumption; apply Hn.
  - apply step_counters.
Qed.

(** C10. No handler writes [avgCount]: every event leaves it as it was, so
    it is 0 in every state reached from the initial one, whether handlers
    run freely or behind the button guards. *)
Theorem avgCount_never_written :
  (forall e s, avgCount (stats (step e s)) = avgCount (stats s))
  /\ (forall e s, avgCount (stats (dispatch e s)) = avgCount (stats s))
  /\ (forall es mountTime,
         avgCount (stats (runHandlers es (initialState mountTime))) = 0)
  /\ (forall es mountTime,
         avgCount (stats (runEvents es (initialState mountTime))) = 0).
Proof.
  assert (Hd : forall e s, avgCount (stats (dispatch e s)) = avgCount (stats s)).
  { intros e s. destruct (dispatch_step_or_skip e s) as [-> | ->];
      [apply step_avgCount | reflexivity]. }
  split; [apply step_avgCount|]. split; [exact Hd|]. split.
  - intros es mountTime. induction es as [|e es IH] using rev_ind.
    + reflexivity.
    + rewrite runHandlers_snoc, step_avgCount. exact IH.
  - intros es mountTime. induction es as [|e es IH] using rev_ind.
    + reflexivity.
    + rewrite runEvents_snoc, Hd. exact IH.
Qed.

(** ** Alert scenario *)

Lemma crowd_count n :
  List.length (filterPeople 0.5%float (crowd n)) = n.
Proof.
  induction n as [|n IH]; [reflexivity|].
  unfold crowd, filterPeople in *. cbn [repeat filter].
  change (isPerson 0.5 (Detection.mk box0 "person" 0.9%float)) with true.
  cbn [List.length]. now rewrite IH.
Qed.

Lemma processFrame_videoRef c env predictions s :
  videoRef (processFrame c env predictions s) = videoRef s.
Proof. destruct s. handler_cases; reflexivity. Qed.

Lemma runHandlers_cycles c frames :
  c_model c = true ->
  c_isMonitoring c = true ->
  Forall delivered frames ->
  forall s,
    videoRef s = true ->
    runHandlers (cycles c frames) s = processFrames c frames s.
Proof.
  intros Hm Hmon Hall. induction Hall as [|fr frames [Hr Hd] _ IH]; intros s Hv.
  - reflexivity.
  - cbn [cycles map runHandlers processFrames fold_left step].
    rewrite (runDetection_completed c (fst fr) s Hm Hmon Hv Hr Hd).
    apply IH. now rewrite processFrame_videoRef.
Qed.

Lemma scenario_step t0 i n s :
  let now := t0 + 500 * Z.of_nat i in
  let due := (3 <=? Z.of_nat n) && (2000 <=? now - lastAlertTime s) in
  let s' :=
    processFrame scenarioCaptured (fst (scenarioFrame t0 i n))
      (snd (scenarioFrame t0 i n)) s in
  sirens s' = (if due then now :: sirens s else sirens s)
  /\ lastAlertTime s' = (if due then now else lastAlertTime s).
Proof.
  intros now due s'. subst now due s'.
  pose proof (processFrame_alert scenarioCaptured (fst (scenarioFrame t0 i n))
                (snd (scenarioFrame t0 i n)) s) as H.
  cbn [scenarioFrame scenarioCaptured fst snd c_confidence c_soundEnabled
       c_threshold alertNow] in *.
  rewrite crowd_count in H. exact H.
Qed.

Lemma step_alert_invariant e s :
  lastAlertTime s = hd 0 (sirens s) ->
  lastAlertTime (step e s) = hd 0 (sirens (step e s)).
Proof.
  intros Hinv.
  destruct (step_counters e s) as [(_ & _ & _ & Hl & Hs) | (c & env & ->)].
  - now rewrite Hl, Hs.
  - cbn [step]. unfold runDetection.
    destruct (negb (c_model c) || negb (c_isMonitoring c) || negb (videoRef s));
      [assumption|].
    destruct (readyState env =? 4); [|assumption].
    destruct (detect env) as [predictions|]; [|assumption].
    destruct (processFrame_alert c env predictions s) as [Hs Hl].
    rewrite Hs, Hl.
    destruct (alertDue _ _ _ _ _); [reflexivity | assumption].
Qed.

(** C3. The alert step starts the siren exactly when sound alerts are
    enabled, the count has reached the threshold and at least 2000 ms have
    passed since [lastAlertTime], which in every reachable state is the time
    of the last siren (0 before the first); it then records the time.  A
    count below the threshold never starts it.  In the scenario (threshold
    3, alerts enabled, counts 0 4 5 4 0 4 read 500 ms apart from [t0], the
    last siren at least 2000 ms before the first breach) the siren starts at
    [t0 + 500] and at no other of the first five cycles, no alert can start
    before [t0 + 2500], and the sixth cycle, at [t0 + 2500], starts the
    next one. *)
Theorem alert_fires_when_due :
  (forall c env count s,
      alertStep c env count s
      = if alertDue (c_soundEnabled c) count (c_threshold c) (alertNow env)
             (lastAlertTime s)
        then fired (alertNow env) s
        else s)
  /\ (forall c env predictions s,
         let count :=
           Z.of_nat (List.length (filterPeople c.(c_confidence) predictions)) in
         let due :=
           alertDue (c_soundEnabled c) count (c_threshold c) (alertNow env)
             (lastAlertTime s) in
         sirens (processFrame c env predictions s)
         = (if due then alertNow env :: sirens s else sirens s)
         /\ lastAlertTime (processFrame c env predictions s)
            = (if due then alertNow env else lastAlertTime s))
  /\ (forall es mountTime,
         lastAlertTime (runHandlers es (initialState mountTime))
         = hd 0 (sirens (runHandlers es (initialState mountTime))))
  /\ (forall c env count s,
         count < c_threshold c -> alertStep c env count s = s)
  /\ (forall t0 s,
         videoRef s = true ->
         lastAlertTime s + 1500 <= t0 ->
         let first5 :=
           runHandlers (cycles scenarioCaptured (firstn 5 (scenarioFrames t0)))
             s in
         let all6 :=
           runHandlers (cycles scenarioCaptured (scenarioFrames t0)) s in
         sirens first5 = (t0 + 500) :: sirens s
         /\ lastAlertTime first5 = t0 + 500
         /\ (forall c env count,
                alertNow env < t0 + 2500 ->
                alertStep c env count first5 = first5)
         /\ sirens all6 = (t0 + 2500) :: (t0 + 500) :: sirens s).
Proof.
  split; [apply alertStep_spec|]. split; [apply processFrame_alert|].
  split; [|split].
  - intros es mountTime. induction es as [|e es IH] using rev_ind.
    + reflexivity.
    + rewrite runHandlers_snoc. now apply step_alert_invariant.
  - intros c env count s Hlow. rewrite alertStep_spec. unfold alertDue.
    destruct (Z.leb_spec (c_threshold c) count); [lia|].
    now rewrite andb_false_r.
  - intros t0 s Hv Hquiet first5 all6. subst first5 all6.
    rewrite !runHandlers_cycles;
      try reflexivity; try assumption;
      try (repeat constructor; fail).
    cbn [scenarioFrames scenarioCounts seq combine map firstn processFrames
         fold_left].
    destruct (scenario_step t0 0 0 s) as [Hs1 Hl1].
    set (s1 := processFrame _ _ _ s) in *.
    destruct (scenario_step t0 1 4 s1) as [Hs2 Hl2].
    set (s2 := processFrame _ _ _ s1) in *.
    destruct (scenario_step t0 2 5 s2) as [Hs3 Hl3].
    set (s3 := processFrame _ _ _ s2) in *.
    destruct (scenario_step t0 3 4 s3) as [Hs4 Hl4].
    set (s4 := processFrame _ _ _ s3) in *.
    destruct (scenario_step t0 4 0 s4) as [Hs5 Hl5].
    set (s5 := processFrame _ _ _ s4) in *.
    destruct (scenario_step t0 5 4 s5) as [Hs6 Hl6].
    set (s6 := processFrame _ _ _ s5) in *.
    cbn [Z.of_nat Pos.of_succ_nat Pos.succ] in *.
    change (3 <=? 0) with false in *. change (3 <=? 4) with true in *.
    change (3 <=? 5) with true in *. cbn [andb] in *.
    rewrite Hl1 in Hs2, Hl2.
    destruct (Z.leb_spec 2000 (t0 + 500 * 1 - lastAlertTime s)); [|lia].
    rewrite Hl2 in Hs3, Hl3.
    destruct (Z.leb_spec 2000 (t0 + 500 * 2 - (t0 + 500 * 1))); [lia|].
    rewrite Hl3 in Hs4, Hl4.
    destruct (Z.leb_spec 2000 (t0 + 500 * 3 - (t0 + 500 * 1))); [lia|].
    rewrite Hl4 in Hl5. rewrite Hl5 in Hs6.
    destruct (Z.leb_spec 2000 (t0 + 500 * 5 - (t0 + 500 * 1))); [|lia].
    rewrite Hs6, Hs5, Hs4, Hs3, Hs2, Hs1, Hl5.
    replace (t0 + 500 * 1) with (t0 + 500) by lia.
    replace (t0 + 500 * 5) with (t0 + 2500) by lia.
    split; [reflexivity|]. split; [reflexivity|]. split; [|reflexivity].
    intros c env count Hearly. rewrite alertStep_spec. unfold alertDue.
    rewrite Hl5.
    destruct (Z.leb_spec 2000 (alertNow env - (t0 + 500 * 1))); [lia|].
    now rewrite andb_false_r.
Qed.

Lemma alert_fires_when_due_witness :
  sirens (runHandlers (cycles scenarioCaptured (scenarioFrames realClock))
            (initialState realClock))
  = [realClock + 2500; realClock + 500]
  /\ alertStep scenarioCaptured (cycleAt realClock) 2 (initialState realClock)
     = initialState realClock.
Proof.
  destruct alert_fires_when_due as (_ & _ & _ & Hbelow & H).
  destruct (H realClock (initialState realClock) eq_refl
              ltac:(cbn; unfold realClock; lia)) as (_ & _ & _ & H6).
  split; [exact H6|]. apply Hbelow. cbn. lia.
Defined.

(** The same run by evaluation, cycle by cycle: which cycles started the
    siren. *)
Example scenario_sirens_by_cycle :
  map (fun k =>
         sirens (runHandlers
                   (cycles scenarioCaptured (firstn k (scenarioFrames realClock)))
                   (initialState realClock)))
    [1; 2; 3; 4; 5; 6]%nat
  = [ [];
      [realClock + 500];
      [realClock + 500];
      [realClock + 500];
      [realClock + 500];
      [realClock + 2500; realClock + 500] ].
Proof. vm_compute. reflexivity. Qed.

(** With a clock that starts at the epoch the initial [lastAlertTime = 0]
    still gates the first breach: the hypothesis on [t0] is needed. *)
Example scenario_at_epoch :
  sirens (runHandlers (cycles scenarioCaptured (scenarioFrames 0))
            (initialState 0))
  = [2500].
Proof. vm_compute. reflexivity. Qed.

(** * Further properties of the handlers *)

(** ** Induction over runs *)

Lemma runHandlers_invariant (P : State -> Prop) :
  (forall e s, P s -> P (step e s)) ->
  forall es s, P s -> P (runHandlers es s).
Proof.
  intros Hstep es s Hs. induction es as [|e es IH] using rev_ind.
  - exact Hs.
  - rewrite runHandlers_snoc. now apply Hstep.
Qed.

Lemma runEvents_invariant (P : State -> Prop) :
  (forall e s, P s -> P (dispatch e s)) ->
  forall es s, P s -> P (runEvents es s).
Proof.
  intros Hstep es s Hs. induction es as [|e es IH] using rev_ind.
  - exact Hs.
  - rewrite runEvents_snoc. now apply Hstep.
Qed.

(** A cycle either is skipped and returns the state it got, or runs the
    body of its [try] block on what [model.detect] returned. *)
Lemma runDetection_cases c env s :
  (cycleRuns c env s = false /\ runDetection c env s = s)
  \/ exists predictions,
      cycleRuns c env s = true
      /\ detect env = Some predictions
      /\ runDetection c env s = processFrame c env predictions s.
Proof.
  unfold runDetection, cycleRuns.
  destruct (c_model c), (c_isMonitoring c), (videoRef s),
    (readyState env =? 4), (detect env) as [predictions|];
    cbn [negb orb andb]; eauto.
Qed.

Lemma processFrame_history c env predictions s :
  historyRef (processFrame c env predictions s)
  = historyRef s
    ++ [Z.of_nat (List.length (filterPeople c.(c_confidence) predictions))].
Proof. destruct s, c, env. handler_cases; reflexivity. Qed.

(** ** Skipped cycles *)



(** ** Statistics and the history of counts *)

Lemma historyPeak_nonneg history : 0 <= historyPeak history.
Proof.
  unfold historyPeak. induction history; cbn [fold_right]; lia.
Qed.

Lemma historyPeak_snoc history c :
  historyPeak (history ++ [c]) = Z.max (historyPeak history) c.
Proof.
  unfold historyPeak. induction history as [|x history IH].
  - cbn [app fold_right]. lia.
  - cbn [app fold_right]. rewrite IH. lia.
Qed.

Lemma historyPositives_snoc history c :
  historyPositives (history ++ [c])
  = historyPositives history + (if 0 <? c then 1 else 0).
Proof.
  unfold historyPositives. rewrite filter_app, length_app. cbn [filter].
  destruct (0 <? c); cbn [List.length]; lia.
Qed.

Lemma processFrame_historyInv c env predictions s :
  historyInv s -> historyInv (processFrame c env predictions s).
Proof.
  unfold historyInv. intros (Hcur & Hpeak & Htot & Hpos).
  rewrite processFrame_stats, processFrame_history.
  cbn [updateStats currentCount peakCount totalDetections].
  rewrite last_last, historyPeak_snoc, historyPositives_snoc, Hpeak, Htot.
  repeat split. apply Forall_app. split; [exact Hpos|].
  constructor; [lia|constructor].
Qed.

Lemma step_historyInv e s : historyInv s -> historyInv (step e s).
Proof.
  intros Hinv. destruct e;
    try (unfold historyInv in *; destruct s; handler_cases; exact Hinv).
  cbn [step].
  destruct (runDetection_cases c env s)
    as [[_ ->] | (predictions & _ & _ & ->)];
    [exact Hinv | now apply processFrame_historyInv].
Qed.

(** X2. In every state the handlers reach, the statistics summarise
    [historyRef], the list of the counts of all cycles that ran:
    [currentCount] is its last entry (0 before the first cycle),
    [peakCount] its largest, [totalDetections] the number of its positive
    entries; so [0 <= currentCount <= peakCount]. *)
Theorem stats_summarise_history es mountTime :
  let s := runHandlers es (initialState mountTime) in
  currentCount (stats s) = last (historyRef s) 0
  /\ peakCount (stats s) = historyPeak (historyRef s)
  /\ totalDetections (stats s) = historyPositives (historyRef s)
  /\ 0 <= currentCount (stats s) <= peakCount (stats s)
  /\ 0 <= totalDetections (stats s) <= Z.of_nat (List.length (historyRef s)).
Proof.
  intros s.
  assert (Hinv : historyInv s).
  { apply runHandlers_invariant; [apply step_historyInv|].
    repeat split. constructor. }
  destruct Hinv as (Hcur & Hpeak & Htot & Hpos).
  split; [exact Hcur|]. split; [exact Hpeak|]. split; [exact Htot|].
  rewrite Hcur, Hpeak, Htot. clear Hcur Hpeak Htot.
  induction (historyRef s) as [|c history IH] using rev_ind.
  - cbn. lia.
  - apply Forall_app in Hpos. destruct Hpos as [Hpos Hc].
    inversion Hc as [|? ? Hc0 _]; subst.
    rewrite last_last, historyPeak_snoc, historyPositives_snoc, length_app.
    cbn [List.length]. specialize (IH Hpos).
    pose proof (historyPeak_nonneg history).
    destruct (0 <? c); lia.
Qed.

(** ** Counters never go back *)

Lemma grows_refl s : grows s s.
Proof.
  unfold grows. repeat split; try lia;
    solve [exists []; reflexivity | exists []; symmetry; apply app_nil_r].
Qed.

Lemma grows_trans s1 s2 s3 : grows s1 s2 -> grows s2 s3 -> grows s1 s3.
Proof.
  unfold grows.
  intros (Hp & Ht & [h Hh] & [a Ha] & [sh Hsh] & [d Hd])
         (Hp' & Ht' & [h' Hh'] & [a' Ha'] & [sh' Hsh'] & [d' Hd']).
  split; [lia|]. split; [lia|]. split; [|split; [|split]].
  - exists (h ++ h'). now rewrite Hh', Hh, app_assoc.
  - exists (a' ++ a). now rewrite Ha', Ha, app_assoc.
  - exists (sh' ++ sh). now rewrite Hsh', Hsh, app_assoc.
  - exists (d' ++ d). now rewrite Hd', Hd, app_assoc.
Qed.

Lemma step_grows e s : grows s (step e s).
Proof.
  unfold grows. destruct e, s; handler_cases;
    (split; [lia|]); (split; [lia|]);
    repeat split;
    solve [ exists []; reflexivity
          | exists []; symmetry; apply app_nil_r
          | eexists [_]; reflexivity
          | eexists; reflexivity ].
Qed.

(** X3. No handler ever lowers [peakCount] or [totalDetections] or loses an
    entry of [historyRef], the sirens, the screenshots or the saved
    recordings: along any sequence of events, from any state, the counters
    are at least what they were and each of the four lists is the old list
    with entries added at its growing end (the back of [historyRef], the
    front of the others).  In particular nothing resets the statistics or
    trims these lists. *)
Theorem counters_only_grow es s :
  peakCount (stats s) <= peakCount (stats (runHandlers es s))
  /\ totalDetections (stats s) <= totalDetections (stats (runHandlers es s))
  /\ (exists added, historyRef (runHandlers es s) = historyRef s ++ added)
  /\ (exists added, sirens (runHandlers es s) = added ++ sirens s)
  /\ (exists added, screenshots (runHandlers es s) = added ++ screenshots s)
  /\ (exists added, downloads (runHandlers es s) = added ++ downloads s).
Proof.
  change (grows s (runHandlers es s)).
  induction es as [|e es IH] using rev_ind.
  - apply grows_refl.
  - rewrite runHandlers_snoc.
    eapply grows_trans; [exact IH | apply step_grows].
Qed.

(** ** Recorded counts stay under the peak *)

Lemma Forall_sliceLast {A : Type} (P : A -> Prop) (n : nat) (a : list A) :
  Forall P a -> Forall P (sliceLast n a).
Proof.
  intros H. unfold sliceLast.
  rewrite <- (firstn_skipn (List.length a - n) a) in H.
  apply Forall_app in H. tauto.
Qed.

Lemma Forall_sliceTo {A : Type} (P : A -> Prop) (n : nat) (a : list A) :
  Forall P a -> Forall P (sliceTo n a).
Proof.
  intros H. unfold sliceTo.
  rewrite <- (firstn_skipn n a) in H.
  apply Forall_app in H. tauto.
Qed.

Lemma processFrame_screenshots c env predictions s :
  screenshots (processFrame c env predictions s) = screenshots s.
Proof. destruct s, c, env. handler_cases; reflexivity. Qed.

Lemma processFrame_chartData c env predictions s :
  let count :=
    Z.of_nat (List.length (filterPeople c.(c_confidence) predictions)) in
  chartData (processFrame c env predictions s) = chartData s
  \/ chartData (processFrame c env predictions s)
     = pushChartPoint (ChartPoint.mk (chartTime env) count) (chartData s).
Proof.
  intros count.
  destruct (Z.le_gt_cases 1000 (fpsNow env - lastFpsTimeRef s)) as [H|H].
  - right. apply (processFrame_sampled c env predictions s H).
  - left. apply (processFrame_not_sampled c env predictions s). lia.
Qed.

Lemma processFrame_underPeak c env predictions s :
  underPeak s -> underPeak (processFrame c env predictions s).
Proof.
  unfold underPeak. intros (Hcur & Hshots & Hchart).
  rewrite processFrame_stats, processFrame_screenshots.
  cbn [updateStats currentCount peakCount].
  set (count := Z.of_nat (List.length (filterPeople _ predictions))).
  assert (Hcount : 0 <= count) by (subst count; lia).
  split; [lia|]. split.
  - eapply Forall_impl; [|exact Hshots]. cbn beta. intros shot Hs. lia.
  - assert (Hold : Forall (fun p => 0 <= ChartPoint.count p
                                    <= Z.max (peakCount (stats s)) count)
                     (chartData s))
      by (eapply Forall_impl; [|exact Hchart]; cbn beta; intros p Hp; lia).
    destruct (processFrame_chartData c env predictions s) as [-> | ->];
      [exact Hold|].
    unfold pushChartPoint. apply Forall_sliceLast, Forall_app.
    split; [exact Hold|]. constructor; [|constructor].
    cbn [ChartPoint.count]. fold count. lia.
Qed.

Lemma step_underPeak e s : underPeak s -> underPeak (step e s).
Proof.
  intros Hinv. destruct e;
    try (unfold underPeak in *; destruct s; handler_cases;
         first [ exact Hinv
               | destruct Hinv as (Hcur & Hshots & Hchart);
                 repeat split; try assumption; try lia;
                 constructor; [cbn [Screenshot.count]; lia | assumption] ]).
  cbn [step].
  destruct (runDetection_cases c env s)
    as [[_ ->] | (predictions & _ & _ & ->)];
    [exact Hinv | now apply processFrame_underPeak].
Qed.

(** X4. In every state the handlers reach, every count on record is between
    0 and [peakCount]: the current count, the count stored with each
    screenshot and the count of each point of the trend chart. *)
Theorem recorded_counts_under_peak es mountTime :
  let s := runHandlers es (initialState mountTime) in
  0 <= currentCount (stats s) <= peakCount (stats s)
  /\ Forall (fun shot => 0 <= Screenshot.count shot <= peakCount (stats s))
       (screenshots s)
  /\ Forall (fun p => 0 <= ChartPoint.count p <= peakCount (stats s))
       (chartData s).
Proof.
  intros s. change (underPeak s).
  apply runHandlers_invariant; [apply step_underPeak|].
  unfold underPeak. cbn. repeat split; try lia; constructor.
Qed.

(** ** Sirens are spaced by the cooldown *)

Lemma step_cooldownInv e s : cooldownInv s -> cooldownInv (step e s).
Proof.
  unfold cooldownInv. intros [Hlast Hsp].
  destruct (step_counters e s) as [(_ & _ & _ & Hl & Hs) | (c & env & ->)].
  - now rewrite Hl, Hs.
  - cbn [step].
    destruct (runDetection_cases c env s)
      as [[_ ->] | (predictions & _ & _ & ->)]; [tauto|].
    destruct (processFrame_alert c env predictions s) as [Hs Hl].
    rewrite Hs, Hl. unfold alertDue.
    destruct (c_soundEnabled c), (c_threshold c <=? _); cbn [andb];
      try tauto.
    destruct (Z.leb_spec 2000 (alertNow env - lastAlertTime s)); [|tauto].
    cbn [hd spaced]. rewrite <- Hlast. tauto.
Qed.

(** X5. In every state the handlers reach, the sirens started so far are at
    least 2000 ms apart by the clock readings of [playAlertSound], the
    first one at a reading of at least 2000, and [lastAlertTime] is the
    reading of the latest. *)
Theorem sirens_spaced_by_cooldown es mountTime :
  let s := runHandlers es (initialState mountTime) in
  spaced (sirens s)
  /\ lastAlertTime s = hd 0 (sirens s)
  /\ Forall (fun t => 2000 <= t) (sirens s).
Proof.
  intros s.
  assert (Hinv : cooldownInv s).
  { apply runHandlers_invariant; [apply step_cooldownInv|].
    split; [reflexivity | exact I]. }
  destruct Hinv as [Hlast Hsp]. split; [exact Hsp|]. split; [exact Hlast|].
  clear Hlast. induction (sirens s) as [|t0 older IH].
  - constructor.
  - destruct Hsp as [Hgap Hsp]. specialize (IH Hsp).
    constructor; [|exact IH].
    destruct older as [|t1 older']; [cbn [hd] in Hgap; lia|].
    cbn [hd] in Hgap. inversion IH; subst. lia.
Qed.

(** ** FPS stays within the frames counted *)

Lemma mathRoundDiv_frames frames elapsed :
  0 <= frames -> 1000 <= elapsed ->
  0 <= mathRoundDiv (frames * 1000) elapsed <= frames.
Proof.
  intros Hf He. unfold mathRoundDiv. split.
  - apply Z.div_pos; lia.
  - apply Z.lt_succ_r, Z.div_lt_upper_bound; nia.
Qed.

Lemma processFrame_fpsInv c env predictions s :
  fpsInv s -> fpsInv (processFrame c env predictions s).
Proof.
  unfold fpsInv. intros [Hfc Hfps].
  destruct (Z.le_gt_cases 1000 (fpsNow env - lastFpsTimeRef s)) as [H|H].
  - destruct (processFrame_sampled c env predictions s H)
      as (-> & -> & _ & _).
    split; [lia|]. apply mathRoundDiv_frames; lia.
  - destruct (processFrame_not_sampled c env predictions s) as (-> & -> & _);
      lia.
Qed.

Lemma step_fpsInv e s : fpsInv s -> fpsInv (step e s).
Proof.
  intros Hinv. destruct e;
    try (unfold fpsInv in *; destruct s; handler_cases; exact Hinv).
  cbn [step].
  destruct (runDetection_cases c env s)
    as [[_ ->] | (predictions & _ & _ & ->)];
    [exact Hinv | now apply processFrame_fpsInv].
Qed.

(** X6. The frame counter and the reported fps are never negative in a
    reachable state, and an FPS sample taken there (at least 1000 ms after
    the previous one) reports at most the number of cycles counted since
    that previous sample, this one included. *)
Theorem fps_within_frames_counted es mountTime c env predictions :
  let s := runHandlers es (initialState mountTime) in
  0 <= frameCountRef s
  /\ 0 <= fps s
  /\ (1000 <= fpsNow env - lastFpsTimeRef s ->
      0 <= fps (processFrame c env predictions s) <= frameCountRef s + 1).
Proof.
  intros s.
  assert (Hinv : fpsInv s).
  { apply runHandlers_invariant; [apply step_fpsInv|]. split; cbn; lia. }
  destruct Hinv as [Hfc Hfps]. split; [exact Hfc|]. split; [exact Hfps|].
  intros H.
  destruct (processFrame_sampled c env predictions s H) as (-> & _).
  apply mathRoundDiv_frames; lia.
Qed.

Lemma fps_within_frames_counted_witness :
  0 <= fps (processFrame (capture monitoringState) (cycleAt 11000) []
              (initialState 10000)) <= 1.
Proof.
  exact (proj2 (proj2 (fps_within_frames_counted [] 10000
                         (capture monitoringState) (cycleAt 11000) []))
           ltac:(cbn; lia)).
Defined.

(** ** Session timer *)

Lemma padStart2_twoDigits z : 0 <= z < 100 -> padStart2 z = twoDigits z.
Proof.
  intros Hz.
  assert (Hall : forallb
                   (fun n => String.eqb (padStart2 (Z.of_nat n))
                               (twoDigits (Z.of_nat n)))
                   (seq 0 100) = true)
    by (vm_compute; reflexivity).
  rewrite forallb_forall in Hall. specialize (Hall (Z.to_nat z)).
  rewrite Z2Nat.id in Hall by lia.
  apply String.eqb_eq, Hall, in_seq. lia.
Qed.

(** X7. While monitoring, a tick of the session timer less than 100 minutes
    after the session start shows the elapsed time as two digits of minutes,
    a colon and two digits of seconds (below 60). *)
Theorem sessionTimerTick_shows_minutes_and_seconds now start s :
  isMonitoring s = true ->
  sessionStartTime (stats s) = Some start ->
  start <> 0 ->
  0 <= now - start < 6000000 ->
  let minutes := (now - start) / 60000 in
  let seconds := ((now - start) / 1000) mod 60 in
  sessionDuration (sessionTimerTick now s)
  = String.append (twoDigits minutes) (String.append ":" (twoDigits seconds))
  /\ String.length (sessionDuration (sessionTimerTick now s)) = 5%nat
  /\ 0 <= minutes < 100
  /\ 0 <= seconds < 60.
Proof.
  intros Hmon Hstart Hnz Hrange minutes seconds. subst minutes seconds.
  unfold sessionTimerTick. rewrite Hstart, Hmon.
  destruct (Z.eqb_spec start 0) as [|_]; [contradiction|].
  cbn [andb negb]. state_simpl.
  assert (Hsec : 0 <= (now - start) / 1000 < 6000).
  { split; [apply Z.div_pos; lia | apply Z.div_lt_upper_bound; lia]. }
  assert (Hmin : 0 <= (now - start) / 1000 / 60 < 100).
  { split; [apply Z.div_pos; lia | apply Z.div_lt_upper_bound; lia]. }
  pose proof (Z.mod_pos_bound ((now - start) / 1000) 60 ltac:(lia)) as Hmod.
  rewrite Z.rem_mod_nonneg by lia.
  rewrite !padStart2_twoDigits by lia.
  replace ((now - start) / 60000) with ((now - start) / 1000 / 60)
    by (rewrite Z.div_div by lia; reflexivity).
  repeat split; try lia.
Qed.

Lemma sessionTimerTick_shows_minutes_and_seconds_witness :
  sessionDuration
    (sessionTimerTick (realClock + 125000)
       (runEvents recordingEvents (initialState realClock)))
  = "02:05".
Proof.
  exact (proj1 (sessionTimerTick_shows_minutes_and_seconds
                  (realClock + 125000) (start := realClock)
                  (runEvents recordingEvents (initialState realClock))
                  eq_refl eq_refl ltac:(discriminate)
                  ltac:(unfold realClock; lia))).
Defined.

(** ** Recordings *)

Lemma step_downloads e s :
  downloads (step e s) = downloads s
  \/ exists now st,
      e = ToggleRecording now st
      /\ isRecording s = true
      /\ mediaRecorderRef s = Some RecRecording
      /\ downloads (step e s) = now :: downloads s.
Proof.
  destruct e;
    try (left; destruct s; try destruct c, env; handler_cases; reflexivity).
  cbn [step]. unfold toggleRecording, addLog.
  destruct (isRecording s) eqn:Hrec.
  - destruct (mediaRecorderRef s) as [[|]|] eqn:Href; state_simpl;
      [left; reflexivity | | left; reflexivity].
    right. exists now, st. auto.
  - left. destruct (negb (videoRef s) || negb (canvasRef s)); reflexivity.
Qed.

(** X8. A recording is saved only by switching a running recording off with
    the Record button.  Stopping the feed saves nothing: it clears
    [isRecording] but leaves the recorder as it was, still recording, and
    the next start of a recording replaces it unsaved. *)
Theorem recording_saved_only_by_toggle_off :
  (forall e s,
      downloads (step e s) = downloads s
      \/ exists now st,
          e = ToggleRecording now st
          /\ isRecording s = true
          /\ mediaRecorderRef s = Some RecRecording
          /\ downloads (step e s) = now :: downloads s)
  /\ (forall st s,
         isRecording (handleStop st s) = false
         /\ mediaRecorderRef (handleStop st s) = mediaRecorderRef s
         /\ downloads (handleStop st s) = downloads s)
  /\ (forall st now st' s,
         downloads (toggleRecording now st' (handleStop st s)) = downloads s).
Proof.
  split; [apply step_downloads|]. split.
  - intros st s. destruct s. handler_cases; repeat split.
  - intros st now st' s. destruct s.
    handler_cases; first [reflexivity | discriminate].
Qed.

Lemma processFrame_flags c env predictions s :
  isMonitoring (processFrame c env predictions s) = isMonitoring s
  /\ isRecording (processFrame c env predictions s) = isRecording s
  /\ mediaRecorderRef (processFrame c env predictions s) = mediaRecorderRef s
  /\ model (processFrame c env predictions s) = model s
  /\ isSystemReady (processFrame c env predictions s) = isSystemReady s
  /\ onloadedmetadata (processFrame c env predictions s) = onloadedmetadata s
  /\ sessionStartTime (stats (processFrame c env predictions s))
     = sessionStartTime (stats s)
  /\ logs (processFrame c env predictions s) = logs s.
Proof. destruct s, c, env. handler_cases; repeat split. Qed.

Lemma dispatch_recordingInv e s : recordingInv s -> recordingInv (dispatch e s).
Proof.
  intros Hinv. destruct e.
  8: { unfold dispatch. cbn [disabled step].
       destruct (runDetection_cases c env s)
         as [[_ ->] | (predictions & _ & _ & ->)]; [exact Hinv|].
       unfold recordingInv in *.
       destruct (processFrame_flags c env predictions s)
         as (-> & -> & -> & _).
       exact Hinv. }
  all: unfold recordingInv, dispatch in *; cbn [disabled];
    destruct s; handler_cases;
    first [ exact Hinv
          | intros ?; first [discriminate | split; congruence]
          | intros H; destruct (Hinv H); split; congruence
          | intros _; rewrite negb_false_iff in *; split; congruence ].
Qed.



(** ** Readiness and session start *)

Lemma step_readyInv e s : readyInv s -> readyInv (step e s).
Proof.
  intros Hinv. destruct e.
  8: { cbn [step].
       destruct (runDetection_cases c env s)
         as [[_ ->] | (predictions & _ & _ & ->)]; [exact Hinv|].
       unfold readyInv in *.
       destruct (processFrame_flags c env predictions s)
         as (-> & _ & _ & -> & -> & _ & -> & _).
       exact Hinv. }
  all: unfold readyInv in *; destruct s; handler_cases;
    first [ exact Hinv
          | destruct Hinv as [Hm [Hs | [t Hs]]];
            solve [ discriminate Hs
                  | split; [congruence | left; congruence]
                  | split; [congruence | right; eauto] ] ].
Qed.

Lemma step_keeps_sessionStart e s t :
  sessionStartTime (stats s) = Some t ->
  exists t', sessionStartTime (stats (step e s)) = Some t'.
Proof.
  intros Hstart. destruct e.
  8: { cbn [step].
       destruct (runDetection_cases c env s)
         as [[_ ->] | (predictions & _ & _ & ->)]; [eauto|].
       destruct (processFrame_flags c env predictions s)
         as (_ & _ & _ & _ & _ & _ & -> & _).
       eauto. }
  all: destruct s; handler_cases; solve [eauto | discriminate].
Qed.

(** X10. In every state the handlers reach, [isSystemReady] tells whether the
    model is loaded, and while monitoring [sessionStartTime] is set; once
    set it stays set, whatever the event: no handler clears it, stop
    included. *)
Theorem ready_iff_model_and_session_start_set es mountTime :
  let s := runHandlers es (initialState mountTime) in
  model s = isSystemReady s
  /\ (isMonitoring s = false \/ exists t, sessionStartTime (stats s) = Some t)
  /\ (forall e,
         sessionStartTime (stats s) = None
         \/ exists t, sessionStartTime (stats (step e s)) = Some t).
Proof.
  intros s.
  assert (Hinv : readyInv s).
  { apply runHandlers_invariant; [apply step_readyInv|].
    split; [reflexivity | left; reflexivity]. }
  destruct Hinv as [Hm Hs]. split; [exact Hm|]. split; [exact Hs|].
  intros e. destruct (sessionStartTime (stats s)) as [t|] eqn:Hstart;
    [right | left; reflexivity].
  exact (step_keeps_sessionStart e s Hstart).
Qed.

(** ** Starting without a model *)

Lemma processFrame_webcamOnlyInv c env predictions s :
  webcamOnlyInv s -> webcamOnlyInv (processFrame c env predictions s).
Proof.
  unfold webcamOnlyInv.
  destruct (processFrame_flags c env predictions s)
    as (-> & _ & _ & -> & -> & -> & _).
  tauto.
Qed.

Lemma dispatch_webcamOnlyInv e s :
  isUpload e = false -> webcamOnlyInv s -> webcamOnlyInv (dispatch e s).
Proof.
  intros He Hinv. destruct e; try discriminate He.
  7: { unfold dispatch. cbn [disabled step].
       destruct (runDetection_cases c env s)
         as [[_ ->] | (predictions & _ & _ & ->)];
         [exact Hinv | now apply processFrame_webcamOnlyInv]. }
  all: unfold webcamOnlyInv, dispatch in *; cbn [disabled];
    destruct s; handler_cases;
    rewrite ?negb_false_iff, ?orb_false_iff, ?negb_false_iff in *;
    first [ exact Hinv
          | destruct Hinv as (Hm & [Hh | [Hh Hl]] & Hmon);
            first [discriminate | repeat split; first [tauto | intuition congruence]] ].
Qed.

(** X11. Behind the button guards and without file uploads, the page
    monitors only with a loaded model: the Start Webcam button is disabled
    until [isSystemReady]. *)
Theorem webcam_monitoring_needs_model es mountTime :
  forallb (fun e => negb (isUpload e)) es = true ->
  isMonitoring (runEvents es (initialState mountTime)) = true ->
  model (runEvents es (initialState mountTime)) = true.
Proof.
  intros Hes Hmon.
  assert (Hinv : webcamOnlyInv (runEvents es (initialState mountTime))).
  { clear Hmon. induction es as [|e es IH] using rev_ind.
    - unfold webcamOnlyInv. cbn. tauto.
    - rewrite forallb_app in Hes. apply andb_true_iff in Hes.
      destruct Hes as [Hes He]. cbn [forallb] in He.
      rewrite andb_true_r, negb_true_iff in He.
      rewrite runEvents_snoc. apply dispatch_webcamOnlyInv; auto. }
  destruct Hinv as (_ & _ & [Hidle | Hmodel]); congruence.
Qed.

Lemma webcam_monitoring_needs_model_witness :
  model (runEvents recordingEvents (initialState realClock)) = true.
Proof.
  exact (webcam_monitoring_needs_model recordingEvents realClock
           eq_refl eq_refl).
Defined.

(** X12. The upload input has no such guard: choosing a file before the
    model has loaded starts monitoring once the video metadata arrives, and
    every detection cycle created in that state is skipped. *)
Theorem upload_starts_monitoring_without_model name now st s :
  videoRef s = true ->
  model s = false ->
  let s' :=
    runEvents [HandleUpload (Some name); LoadedMetadata now st] s in
  isMonitoring s' = true
  /\ model s' = false
  /\ videoSource s' = FileUrl name
  /\ forall env, runDetection (capture s') env s' = s'.
Proof.
  intros Hv Hm s'. subst s'. destruct s. state_simpl. subst.
  unfold runEvents. cbn [fold_left]. unfold dispatch, capture.
  cbn [disabled].
  handler_cases; repeat split; intros; first [reflexivity | discriminate].
Qed.

Lemma upload_starts_monitoring_without_model_witness :
  isMonitoring
    (runEvents [HandleUpload (Some "clip.mp4"); LoadedMetadata realClock stamp0]
       (initialState realClock)) = true
  /\ model
       (runEvents
          [HandleUpload (Some "clip.mp4"); LoadedMetadata realClock stamp0]
          (initialState realClock)) = false.
Proof.
  destruct (upload_starts_monitoring_without_model "clip.mp4" realClock stamp0
              (initialState realClock) eq_refl eq_refl) as (H1 & H2 & _).
  split; [exact H1 | exact H2].
Defined.

(** ** What the log never holds *)

Lemma step_noAlertEntries e s : noAlertEntries s -> noAlertEntries (step e s).
Proof.
  intros Hinv. destruct e.
  8: { cbn [step].
       destruct (runDetection_cases c env s)
         as [[_ ->] | (predictions & _ & _ & ->)]; [exact Hinv|].
       unfold noAlertEntries in *.
       destruct (processFrame_flags c env predictions s)
         as (_ & _ & _ & _ & _ & _ & _ & ->).
       exact Hinv. }
  all: unfold noAlertEntries in *; destruct s; handler_cases;
    first [ exact Hinv
          | apply Forall_sliceTo; constructor;
            [cbn [LogEntry.type]; discriminate | exact Hinv] ].
Qed.

(** X13. A detection cycle writes nothing to the log, whether it is skipped,
    runs quietly or starts the siren; and no handler ever writes an entry of
    type [alert], so the log of a reachable state holds none. *)
Theorem log_never_holds_alert_entries :
  (forall c env s, logs (runDetection c env s) = logs s)
  /\ (forall es mountTime,
         Forall (fun entry => LogEntry.type entry <> alert)
           (logs (runHandlers es (initialState mountTime)))).
Proof.
  split.
  - intros c env s.
    destruct (runDetection_cases c env s)
      as [[_ ->] | (predictions & _ & _ & ->)]; [reflexivity|].
    apply (processFrame_flags c env predictions s).
  - intros es mountTime.
    change (noAlertEntries (runHandlers es (initialState mountTime))).
    apply runHandlers_invariant; [apply step_noAlertEntries | constructor].
Qed.

(** ** Header status and warning banner *)

(** X14. Stopping the feed hides the warning banner but leaves the header
    status as it was, so a "Crowd Alert" shown at the time of the stop stays
    on.  A cycle whose closure holds the current threshold and that starts
    the siren leaves the header on "Crowd Alert", and the banner up if the
    page is monitoring. *)
Theorem header_outlives_banner c env predictions st s :
  (alertBanner (handleStop st s) = false
   /\ headerStatus (handleStop st s) = headerStatus s)
  /\ (c_threshold c = threshold s ->
      sirens (processFrame c env predictions s) <> sirens s ->
      headerStatus (processFrame c env predictions s) = "Crowd Alert"
      /\ alertBanner (processFrame c env predictions s) = isMonitoring s).
Proof.
  split.
  - unfold alertBanner, headerStatus. destruct s.
    handler_cases; split; reflexivity.
  - intros Hthr Hsiren.
    destruct (processFrame_alert c env predictions s) as [Hs _].
    unfold alertDue in Hs. rewrite Hs in Hsiren.
    destruct (c_soundEnabled c); cbn [andb] in Hsiren; [|contradiction].
    destruct (Z.leb_spec (c_threshold c)
                (Z.of_nat (List.length
                             (filterPeople (c_confidence c) predictions))))
      as [Hge|]; cbn [andb] in Hsiren; [|contradiction].
    unfold headerStatus, alertBanner.
    rewrite processFrame_stats. cbn [updateStats currentCount].
    destruct (processFrame_flags c env predictions s) as (-> & _).
    assert (Hsame : threshold (processFrame c env predictions s) = threshold s)
      by (destruct s, c, env; handler_cases; reflexivity).
    rewrite Hsame, <- Hthr.
    destruct (Z.leb_spec (c_threshold c)
                (Z.of_nat (List.length
                             (filterPeople (c_confidence c) predictions))));
      [|lia].
    split; [reflexivity | apply andb_true_r].
Qed.

Lemma header_outlives_banner_witness :
  headerStatus
    (processFrame scenarioCaptured (cycleAt realClock) (crowd 4)
       (initialState realClock))
  = "Crowd Alert".
Proof.
  exact (proj1 (proj2 (header_outlives_banner scenarioCaptured
                         (cycleAt realClock) (crowd 4) stamp0
                         (initialState realClock))
                  eq_refl ltac:(vm_compute; discriminate))).
Defined.

(** ** Screenshots *)


(** ** Overlay *)

Lemma filterPeople_class confidence predictions :
  Forall (fun d => Detection.class d = "person")
    (filterPeople confidence predictions).
Proof.
  apply Forall_forall. intros d Hd. unfold filterPeople in Hd.
  apply filter_In in Hd. destruct Hd as [_ Hd].
  apply isPerson_true in Hd. tauto.
Qed.

Lemma processFrame_overlay c env predictions s :
  overlay (processFrame c env predictions s) = overlay s
  \/ overlay (processFrame c env predictions s)
     = filterPeople c.(c_confidence) predictions.
Proof.
  destruct s, c, env. handler_cases;
    solve [left; reflexivity | right; reflexivity].
Qed.

Lemma step_overlayInv e s : overlayInv s -> overlayInv (step e s).
Proof.
  intros Hinv. destruct e;
    try (unfold overlayInv in *; destruct s; handler_cases; exact Hinv).
  cbn [step].
  destruct (runDetection_cases c env s)
    as [[_ ->] | (predictions & _ & _ & ->)]; [exact Hinv|].
  unfold overlayInv in *.
  destruct (processFrame_overlay c env predictions s) as [-> | ->];
    [exact Hinv | apply filterPeople_class].
Qed.

(** X16. Every box on the overlay is a detection of class ["person"], in
    every state the handlers reach.  Stopping the feed does not redraw the
    overlay: the boxes of the last cycle stay. *)
Theorem overlay_shows_only_people :
  (forall es mountTime,
      Forall (fun d => Detection.class d = "person")
        (overlay (runHandlers es (initialState mountTime))))
  /\ (forall st s, overlay (handleStop st s) = overlay s).
Proof.
  split.
  - intros es mountTime.
    change (overlayInv (runHandlers es (initialState mountTime))).
    apply runHandlers_invariant; [apply step_overlayInv | constructor].
  - intros st s. destruct s. handler_cases; reflexivity.
Qed.

(** ** Stop and record while idle *)

(** C4. While the session is idle ([isMonitoring] false) the Stop and
    Record buttons, the only callers of [handleStop] and [toggleRecording],
    are disabled: a stop runs no handler, so there is no transition and no
    further log entry; a start of recording is refused the same way, so no
    recording starts and nothing changes.  An idle state reached through
    the page is not recording either. *)
Theorem idle_stop_and_record_are_noops s :
  isMonitoring s = false ->
  (forall st,
      dispatch (HandleStop st) s = s
      /\ isMonitoring (dispatch (HandleStop st) s) = false
      /\ logs (dispatch (HandleStop st) s) = logs s)
  /\ (forall now st,
         dispatch (ToggleRecording now st) s = s
         /\ isRecording (dispatch (ToggleRecording now st) s) = isRecording s
         /\ mediaRecorderRef (dispatch (ToggleRecording now st) s)
            = mediaRecorderRef s
         /\ logs (dispatch (ToggleRecording now st) s) = logs s)
  /\ (forall es mountTime,
         s = runEvents es (initialState mountTime) -> isRecording s = false).
Proof.
  intros Hidle.
  assert (Hstop : forall st, dispatch (HandleStop st) s = s)
    by (intros st; unfold dispatch; cbn [disabled]; now rewrite Hidle).
  assert (Hrec : forall now st, dispatch (ToggleRecording now st) s = s)
    by (intros now st; unfold dispatch; cbn [disabled]; now rewrite Hidle).
  split; [|split].
  - intros st. rewrite Hstop. auto.
  - intros now st. rewrite Hrec. auto.
  - intros es mountTime Hreach.
    destruct (isRecording s) eqn:Hrecording; [|reflexivity].
    assert (Hinv : recordingInv s).
    { rewrite Hreach. apply runEvents_invariant;
        [apply dispatch_recordingInv | intros H; discriminate H]. }
    destruct (Hinv Hrecording) as [Hmon _]. congruence.
Qed.

Lemma idle_stop_and_record_are_noops_witness :
  dispatch (HandleStop stamp0) (initialState 0) = initialState 0
  /\ dispatch (ToggleRecording 0 stamp0) (initialState 0) = initialState 0
  /\ isRecording (initialState 0) = false.
Proof.
  destruct (idle_stop_and_record_are_noops (initialState 0) eq_refl)
    as (Hstop & Hrec & Hreach).
  split; [apply Hstop|]. split; [apply Hrec|].
  exact (Hreach [] 0 eq_refl).
Defined.
